(** * PICwriter grating coupler: a model of [picwriter/components/gratingcoupler.py]

    The file embeds the [GratingCoupler] class: parameter validation in
    [__init__], the straight and the lensed (focusing) geometry of
    [build_cell], the orientation of the result and the port registered by
    [build_ports].

    Conventions of the embedding.
    - Python numbers are exact rationals ([Q]); [==] is equality of value.
      Integer quantities ([num_teeth], [qmin], [evaluations]) are in [Z];
      where an integer depends on the rounding of doubles ([qmin]) the
      operations are rounded with [py.double].
    - Exceptions are values of [py.exn]; a method of the class is a
      computation [M A] over the mutable part of the cell (its elements and
      its port list), which keeps the state reached when an exception is
      raised.
    - [gdspy], [numpy.sqrt] and [picwriter.toolkit] are libraries the class
      calls; they enter as interfaces ([gdspy.Kernel], [np.Sqrt],
      [tk.Toolkit]) and every theorem holds for each implementation of them.
      A small executable implementation ([Reference]) runs the builder on
      concrete inputs. *)

From Stdlib Require Import QArith Qround Qabs ZArith Lia Lqa List Bool.
From stdpp Require Import gmap strings list.

Local Open Scope Q_scope.

Definition point : Type := Q * Q.
Definition polygon : Type := list point.

(** ** Python primitives used by the class *)
Module py.

Inductive exn : Type :=
| ValueError (msg : string)
| ZeroDivisionError
| AssertionError
| UnboundLocalError (name : string)
| IndexError.

(** [a < b] and [a > b] on numbers. *)
Definition lt (a b : Q) : bool := negb (Qle_bool b a).
Definition gt (a b : Q) : bool := lt b a.

(** [int(q)]: truncation toward zero. *)
Definition int (q : Q) : Z := (Qnum q ÷ Zpos (Qden q))%Z.

(** [a // b]: floor of the quotient, [ZeroDivisionError] when [b] is zero. *)
Definition floordiv (a b : Q) : exn + Q :=
  if Qeq_bool b 0 then inl ZeroDivisionError
  else inr (inject_Z (Qfloor (a / b))).

(** The nearest integer to [p / q], ties to the even one ([0 <= p],
    [0 < q]). *)
Definition round_half_even (p q : Z) : Z :=
  let k := (p / q)%Z in
  match (2 * (p mod q) ?= q)%Z with
  | Lt => k
  | Gt => (k + 1)%Z
  | Eq => if Z.even k then k else (k + 1)%Z
  end.

(** The binary exponent of [a / d]: the [e] with [2^e <= a/d < 2^(e+1)]
    ([0 < a], [0 < d]). *)
Definition exponent (a d : Z) : Z :=
  let e := (Z.log2 a - Z.log2 d)%Z in
  if (if (0 <=? e)%Z then (d * 2 ^ e <=? a)%Z else (d <=? a * 2 ^ (- e))%Z)
  then e else (e - 1)%Z.

(** [a / d] rounded to 53 significant bits. *)
Definition magnitude (a d : Z) : Q :=
  let s := (52 - exponent a d)%Z in
  if (0 <=? s)%Z then
    inject_Z (round_half_even (a * 2 ^ s) d) / inject_Z (2 ^ s)
  else
    inject_Z (round_half_even a (d * 2 ^ (- s)) * 2 ^ (- s)).

(** The double nearest to [x], ties to even: the result of an arithmetic
    operation on doubles whose exact value is [x], and [float(x)]. The range
    of the exponent is not bounded (no overflow, no subnormal number). *)
Definition double (x : Q) : Q :=
  let r := Qred x in
  match Qnum r with
  | Z0 => 0
  | Zpos a => magnitude (Zpos a) (Zpos (Qden r))
  | Zneg a => - magnitude (Zpos a) (Zpos (Qden r))
  end.

(** [range(lo, hi)]. *)
Definition range (lo hi : Z) : list Z :=
  map (fun i : nat => (lo + Z.of_nat i)%Z) (seq 0 (Z.to_nat (hi - lo))).

(** [l[:k]], also for a negative [k]. *)
Definition slice_to {A : Type} (k : Z) (l : list A) : list A :=
  if (0 <=? k)%Z then firstn (Z.to_nat k) l
  else firstn (List.length l - Z.to_nat (- k)) l.

End py.

(** ** numpy *)
Module np.

(** [np.pi], the double nearest to pi: 0x1.921fb54442d18p+1. *)
Definition pi : Q := 884279719003555 # 281474976710656.

(** [np.sqrt]: any function of the value of its argument. *)
Class Sqrt : Type := {
  sqrt : Q -> Q;
  sqrt_proper : forall a b : Q, a == b -> sqrt a == sqrt b
}.

(** [np.vstack] of two arrays of points. *)
Definition vstack (a b : polygon) : polygon := a ++ b.

(** [np.degrees]. *)
Definition degrees (a : Q) : Q := a * 180 / pi.

End np.

(** ** The gdspy geometry kernel, as the class uses it *)
Module gdspy.

(** A [Path] or [L1Path] object: the attributes the class reads and
    writes directly, and the rest of the object ([hidden]). *)
Record PolygonSet (A : Type) : Type := {
  polygons : list polygon;
  x : Q;
  y : Q;
  hidden : A
}.
Arguments polygons {A}.
Arguments x {A}.
Arguments y {A}.
Arguments hidden {A}.

Definition set_x {A : Type} (v : Q) (s : PolygonSet A) : PolygonSet A :=
  {| polygons := polygons s; x := v; y := y s; hidden := hidden s |}.
Definition set_y {A : Type} (v : Q) (s : PolygonSet A) : PolygonSet A :=
  {| polygons := polygons s; x := x s; y := v; hidden := hidden s |}.
Definition set_polygons {A : Type} (ps : list polygon) (s : PolygonSet A)
  : PolygonSet A :=
  {| polygons := ps; x := x s; y := y s; hidden := hidden s |}.

(** The calls the class makes, with the contract of the kernel they rely
    on: a new [Path] has no polygon and length zero, and [fracture]
    (default [max_points=199]) leaves no polygon with more than 199
    points. *)
Class Kernel : Type := {
  state : Type;
  Path (width : Q) (initial_point : point) (number_of_paths : Z)
       (distance : Q) : PolygonSet state;
  segment (length : Q) (direction : string)
          (final_width final_distance : option Q) (layer datatype : Z)
    : PolygonSet state -> PolygonSet state;
  parametric (curve_function : Q -> point)
             (number_of_evaluations max_points : Z) (layer datatype : Z)
    : PolygonSet state -> PolygonSet state;
  L1Path (initial_point : point) (direction : string) (width : Q)
         (length turn : list Q) (number_of_paths : Z) (distance : Q)
         (layer datatype : Z) : PolygonSet state;
  rotate (angle : Q) (center : point)
    : PolygonSet state -> PolygonSet state;
  fracture : PolygonSet state -> PolygonSet state;
  path_length : PolygonSet state -> Q;
  Path_polygons : forall w p n d, polygons (Path w p n d) = [];
  Path_length : forall w p n d, path_length (Path w p n d) == 0;
  fracture_max_points : forall s,
    Forall (fun p : polygon => (List.length p <= 199)%nat)
           (polygons (fracture s))
}.

Definition shape `{Kernel} : Type := PolygonSet state.

(** What [parametric] draws. A path keeps its number of parallel paths, and
    a parametric call with at least two evaluations and a cap of at least
    five points on a path of at least one parallel path appends at least one
    polygon to it. (Below two evaluations gdspy's [parametric] raises; the
    calls of [Kernel] stand for the calls that return.) *)
Class Drawing `{K : Kernel} : Type := {
  number_of_paths : state -> Z;
  Path_number_of_paths : forall w p n d,
    number_of_paths (hidden (Path w p n d)) = n;
  parametric_number_of_paths : forall f n cap l d s,
    number_of_paths (hidden (parametric f n cap l d s))
    = number_of_paths (hidden s);
  parametric_draws : forall f n cap l d s,
    (2 <= n)%Z -> (5 <= cap)%Z -> (1 <= number_of_paths (hidden s))%Z ->
    exists new, new <> []
                /\ polygons (parametric f n cap l d s) = polygons s ++ new
}.

End gdspy.

(** ** picwriter.toolkit *)
Module tk.

(** The 180 degree relabeling of the four cardinal tags. *)
Definition opposite (direction : string) : option string :=
  if String.eqb direction "NORTH" then Some "SOUTH"
  else if String.eqb direction "SOUTH" then Some "NORTH"
  else if String.eqb direction "WEST" then Some "EAST"
  else if String.eqb direction "EAST" then Some "WEST"
  else None.

(** Modelled from the spec: [picwriter.toolkit.flip_direction] is not among
    the sources. The direction it returns is the opposite of the facing
    direction, a fixed 180 degree relabeling of the cardinal tags (a device
    facing EAST exposes a port approached from the WEST); nothing is said of
    its result on another value ([None] stands for Python's [None]). *)
Class Toolkit : Type := {
  flip_direction : string -> option string;
  flip_cardinal : forall d o, opposite d = Some o -> flip_direction d = Some o
}.

End tk.

(** ** The waveguide template read by the class *)
Record WaveguideTemplate : Type := {
  wg_width : Q;
  clad_width : Q;
  resist : string;
  layer : Z;
  datatype : Z
}.

(** An entry of [portlist]: [{'port': ..., 'direction': ...}]. *)
Module Port.
Record t : Type := { port : point; direction : option string }.
End Port.

(** ** The class *)
Module GratingCoupler.

(** The arguments of the constructor, which are also the attributes it
    stores. *)
Record t : Type := {
  wgt : WaveguideTemplate;
  port : point;
  direction : string;
  focus_distance : option Q;
  width : Q;
  length : Q;
  taper_length : Q;
  period : Q;
  dutycycle : Q;
  wavelength : Q;
  sin_theta : Q;
  evaluations : Z
}.

(** The defaults of the signature; [sin_theta] is
    [np.sin(np.pi * 8 / 180)]. *)
Definition defaults (w : WaveguideTemplate) : t := {|
  wgt := w;
  port := (0, 0);
  direction := "EAST";
  focus_distance := None;
  width := 20;
  length := 50;
  taper_length := 20;
  period := 1.0;
  dutycycle := 0.5;
  wavelength := 1.55;
  sin_theta := 0.13917310096006544;
  evaluations := 99
|}.

(** [self.dc], [self.resist] and [self.spec]. *)
Definition dc (self : t) : Q := dutycycle self.
Definition self_resist (self : t) : string := resist (wgt self).
Definition spec_layer (self : t) : Z := layer (wgt self).
Definition spec_datatype (self : t) : Z := datatype (wgt self).

Section Class.
Context `{K : gdspy.Kernel} `{S : np.Sqrt} `{T : tk.Toolkit}.

(** The mutable part of the cell. *)
Record Cell : Type := {
  elements : list gdspy.shape;
  portlist : gmap string Port.t
}.

Definition empty_cell : Cell := {| elements := []; portlist := ∅ |}.

(** Computations that may raise and that change the cell. *)
Definition M (A : Type) : Type := Cell -> (py.exn + A) * Cell.

Definition ret {A : Type} (a : A) : M A := fun c => (inr a, c).
Definition raise {A : Type} (e : py.exn) : M A := fun c => (inl e, c).
Definition bind {A B : Type} (m : M A) (k : A -> M B) : M B :=
  fun c => match m c with
           | (inl e, c') => (inl e, c')
           | (inr a, c') => k a c'
           end.
Definition lift {A : Type} (r : py.exn + A) : M A :=
  match r with inl e => raise e | inr a => ret a end.

(** [self.add(element)]. *)
Definition add (element : gdspy.shape) : M unit :=
  fun c => (inr tt, {| elements := elements c ++ [element];
                       portlist := portlist c |}).

(** [self.portlist[key] = entry]. *)
Definition set_port (key : string) (entry : Port.t) : M unit :=
  fun c => (inr tt, {| elements := elements c;
                       portlist := <[key := entry]> (portlist c) |}).

Notation "x <- m ;; k" := (bind m (fun x => k))
  (at level 100, m at next level, right associativity).
Notation "m ;;; k" := (bind m (fun _ => k))
  (at level 100, right associativity).

(** *** build_cell: the straight grating (lines 69-84)

    The result is the pair [(teeth, path)] of the local variables, or
    [None] when neither branch on the resist assigns them. *)
Definition straight (self : t) (num_teeth : Z)
  : option (gdspy.shape * gdspy.shape) :=
  if String.eqb (self_resist self) "-" then
    let path := gdspy.Path (wg_width (wgt self)) (port self) 1 0 in
    let path :=
      gdspy.segment (taper_length self) "+y" (Some (width self)) None
                    (spec_layer self) (spec_datatype self) path in
    let teeth :=
      gdspy.L1Path
        (fst (port self) - 0.5 * width self,
         taper_length self + snd (port self)
         + 0.5 * (inject_Z num_teeth - 1 + dc self) * period self)
        "+x" (period self * dc self) [width self] [] num_teeth
        (period self) (spec_layer self) (spec_datatype self) in
    Some (teeth, path)
  else if String.eqb (self_resist self) "+" then
    let path :=
      gdspy.Path (clad_width (wgt self)) (port self) 2
                 (wg_width (wgt self) + clad_width (wgt self)) in
    let path :=
      gdspy.segment (taper_length self) "+y" None
                    (Some (width self + clad_width (wgt self)))
                    (spec_layer self) (spec_datatype self) path in
    let path :=
      gdspy.segment (length self) "+y" None None
                    (spec_layer self) (spec_datatype self) path in
    let teeth :=
      gdspy.L1Path
        (fst (port self) - 0.5 * width self,
         taper_length self + snd (port self)
         + 0.5 * (inject_Z num_teeth - 1 + (1.0 - dc self)) * period self)
        "+x" (period self * (1.0 - dc self)) [width self] [] num_teeth
        (period self) (spec_layer self) (spec_datatype self) in
    Some (teeth, path)
  else None.

(** *** build_cell: the lensed grating (lines 86-110) *)

Definition neff (self : t) : Q :=
  wavelength self / period self + sin_theta self.

(** [int(self.focus_distance / float(self.period) + 0.5)]: the operands of
    the division are doubles (a focus distance given as an integer is
    converted), and so are the quotient and the sum. *)
Definition qmin (self : t) (fd : Q) : Z :=
  py.int
    (py.double
       (py.double (py.double fd / py.double (period self)) + 0.5)).

Definition max_points : Z := 199.

Definition c3 (self : t) : Q := (neff self) ^ 2 - (sin_theta self) ^ 2.

Definition w (self : t) : Q := 0.5 * width self.

Definition c1 (self : t) (q : Z) : Q :=
  inject_Z q * wavelength self * sin_theta self.

Definition c2 (self : t) (q : Z) : Q := (inject_Z q * wavelength self) ^ 2.

(** The function handed to [teeth.parametric] for the tooth [q]. *)
Definition curve (self : t) (q : Z) (t : Q) : point :=
  (width self * t - w self,
   (c1 self q
    + neff self * np.sqrt (c2 self q - c3 self * (width self * t - w self) ^ 2))
   / c3 self).

(** One turn of the loop. *)
Definition tooth (self : t) (teeth : gdspy.shape) (q : Z) : gdspy.shape :=
  let teeth :=
    gdspy.parametric (curve self q) (evaluations self) max_points
                     (spec_layer self) (spec_datatype self) teeth in
  let teeth := gdspy.set_x (fst (port self)) teeth in
  gdspy.set_y (snd (port self)) teeth.

(** The tooth indices and the path after the loop. *)
Definition tooth_indices (self : t) (num_teeth : Z) (fd : Q) : list Z :=
  py.range (qmin self fd) (qmin self fd + num_teeth).

Definition curved_teeth (self : t) (num_teeth : Z) (fd : Q) : gdspy.shape :=
  fold_left (tooth self) (tooth_indices self num_teeth fd)
            (gdspy.Path (period self * dc self) (port self) 1 0).

(** Lines 106-109: [teeth.polygons[0] = np.vstack(...)]. *)
Definition close_first (self : t) (teeth : gdspy.shape)
  : py.exn + gdspy.shape :=
  match gdspy.polygons teeth with
  | [] => inl py.IndexError
  | first :: others =>
      inr (gdspy.set_polygons
             (np.vstack
                (py.slice_to (evaluations self) first)
                [(fst (port self) + 0.5 * wg_width (wgt self), snd (port self));
                 (fst (port self) - 0.5 * wg_width (wgt self), snd (port self))]
              :: others)
             teeth)
  end.

Definition lensed (self : t) (num_teeth : Z) (fd : Q)
  : py.exn + (gdspy.shape * gdspy.shape) :=
  let path := gdspy.Path (wg_width (wgt self)) (port self) 1 0 in
  if negb (py.gt fd 0) then inl py.AssertionError
  else
    match close_first self (curved_teeth self num_teeth fd) with
    | inl e => inl e
    | inr teeth => inr (gdspy.fracture teeth, path)
    end.

(** *** build_cell: lines 67-110, the shapes before they are oriented *)

Definition num_teeth (self : t) : py.exn + Z :=
  match py.floordiv (length self) (period self) with
  | inl e => inl e
  | inr d => inr (py.int d)
  end.

Definition shapes (self : t)
  : py.exn + option (gdspy.shape * gdspy.shape) :=
  match num_teeth self with
  | inl e => inl e
  | inr n =>
      match focus_distance self with
      | None => inr (straight self n)
      | Some fd =>
          match lensed self n fd with
          | inl e => inl e
          | inr tp => inr (Some tp)
          end
      end
  end.

(** *** build_cell: lines 112-120, the three tests on the direction *)

Definition orient (self : t) (tp : gdspy.shape * gdspy.shape)
  : gdspy.shape * gdspy.shape :=
  let tp :=
    if String.eqb (direction self) "WEST" then
      (gdspy.rotate (np.pi / 2.0) (port self) (fst tp),
       gdspy.rotate (np.pi / 2.0) (port self) (snd tp))
    else tp in
  let tp :=
    if String.eqb (direction self) "SOUTH" then
      (gdspy.rotate np.pi (port self) (fst tp),
       gdspy.rotate np.pi (port self) (snd tp))
    else tp in
  if String.eqb (direction self) "EAST" then
    (gdspy.rotate (- np.pi / 2.0) (port self) (fst tp),
     gdspy.rotate (- np.pi / 2.0) (port self) (snd tp))
  else tp.

(** [teeth] and [path] are read: an unassigned local raises. *)
Definition locals (tp : option (gdspy.shape * gdspy.shape))
  : py.exn + (gdspy.shape * gdspy.shape) :=
  match tp with
  | None => inl (py.UnboundLocalError "teeth")
  | Some tp => inr tp
  end.

Definition build_cell (self : t) : M unit :=
  tp <- lift (shapes self) ;;
  tp <- lift (locals tp) ;;
  let tp := orient self tp in
  add (fst tp) ;;;
  add (snd tp).

Definition build_ports (self : t) : M unit :=
  set_port "output"
    {| Port.port := port self;
       Port.direction := tk.flip_direction (direction self) |}.

(** [gdspy.Cell.__init__(self, name)] and [self.portlist = {}] (lines 36
    and 38): whatever the cell held, it holds no element and no port. *)
Definition reset : M unit := fun _ => (inr tt, empty_cell).

(** The constructor; the attributes it stores are the arguments [self]. *)
Definition __init__ (self : t) : M unit :=
  reset ;;;
  (if py.gt (dutycycle self) 1.0 || py.lt (dutycycle self) 0.0 then
     raise (py.ValueError
       "Warning! Dutycycle *must* specify a valid number between 0 and 1.")
   else
     build_cell self ;;;
     build_ports self).

(** [GratingCoupler(wgt, ...)]: the outcome and the state of the cell. *)
Definition new (self : t) : (py.exn + unit) * Cell :=
  __init__ self empty_cell.

End Class.

End GratingCoupler.

(** ** An executable implementation of the three interfaces

    It follows the documented behaviour of gdspy on the calls the class
    makes: parallel paths centred on the path axis, a polygon made of one
    edge of the path followed by the other edge reversed, [x] and [y] moved
    to the end of what was drawn. Two simplifications: the edges of a
    parametric path are offset along [y] instead of along the normal of the
    curve, and a rotation is by the nearest quarter turn (exact on the three
    angles the class uses). *)
Module Reference.

Record attrs : Type := {
  half_width : Q;
  n : Z;
  distance : Q;
  length : Q
}.

Definition obj : Type := gdspy.PolygonSet attrs.

Definition Path (width : Q) (p : point) (number_of_paths : Z) (d : Q) : obj :=
  {| gdspy.polygons := [];
     gdspy.x := fst p;
     gdspy.y := snd p;
     gdspy.hidden := {| half_width := width * 0.5; n := number_of_paths;
                        distance := d; length := 0 |} |}.

(** The offset of the parallel path [ii] from the axis. *)
Definition offset (count : Z) (d : Q) (ii : Z) : Q :=
  inject_Z ii * d - (inject_Z count - 1) * d * 0.5.

Definition segment (len : Q) (direction : string)
  (final_width final_distance : option Q) (layer datatype : Z) (s : obj)
  : obj :=
  let a := gdspy.hidden s in
  let w1 := match final_width with
            | Some v => v * 0.5 | None => half_width a end in
  let d1 := match final_distance with
            | Some v => v | None => distance a end in
  let a1 := {| half_width := w1; n := n a; distance := d1;
               length := length a + len |} in
  if String.eqb direction "+y" then
    let x0 := gdspy.x s in
    let y0 := gdspy.y s in
    let y1 := y0 + len in
    let piece (ii : Z) : polygon :=
      let o0 := offset (n a) (distance a) ii in
      let o1 := offset (n a) d1 ii in
      [(x0 + o0 - half_width a, y0); (x0 + o0 + half_width a, y0);
       (x0 + o1 + w1, y1); (x0 + o1 - w1, y1)] in
    {| gdspy.polygons := gdspy.polygons s ++ map piece (py.range 0 (n a));
       gdspy.x := x0; gdspy.y := y1; gdspy.hidden := a1 |}
  else
    {| gdspy.polygons := gdspy.polygons s;
       gdspy.x := gdspy.x s; gdspy.y := gdspy.y s; gdspy.hidden := a1 |}.

(** [numpy.linspace(0, 1, count)]. *)
Definition linspace (count : Z) : list Q :=
  map (fun i : Z => inject_Z i / inject_Z (count - 1)) (py.range 0 count).

Definition parametric (f : Q -> point) (evals cap : Z) (layer datatype : Z)
  (s : obj) : obj :=
  let a := gdspy.hidden s in
  let x0 := gdspy.x s in
  let y0 := gdspy.y s in
  let ts := linspace evals in
  let lower := map (fun t => (x0 + fst (f t), y0 + snd (f t) - half_width a)) ts in
  let upper := map (fun t => (x0 + fst (f t), y0 + snd (f t) + half_width a)) ts in
  {| gdspy.polygons := gdspy.polygons s ++ [lower ++ rev upper];
     gdspy.x := x0 + fst (f 1);
     gdspy.y := y0 + snd (f 1);
     gdspy.hidden := a |}.

Definition L1Path (p : point) (direction : string) (width : Q)
  (lengths turn : list Q) (number_of_paths : Z) (d : Q) (layer datatype : Z)
  : obj :=
  let hw := width * 0.5 in
  let a := {| half_width := hw; n := number_of_paths; distance := d;
              length := 0 |} in
  match lengths, turn with
  | [len], [] =>
      if String.eqb direction "+x" then
        let row (ii : Z) : polygon :=
          let o := offset number_of_paths d ii in
          [(fst p, o + snd p - hw); (fst p + len, o + snd p - hw);
           (fst p + len, o + snd p + hw); (fst p, o + snd p + hw)] in
        {| gdspy.polygons := map row (py.range 0 number_of_paths);
           gdspy.x := fst p + len; gdspy.y := snd p; gdspy.hidden := a |}
      else
        {| gdspy.polygons := []; gdspy.x := fst p; gdspy.y := snd p;
           gdspy.hidden := a |}
  | _, _ =>
      {| gdspy.polygons := []; gdspy.x := fst p; gdspy.y := snd p;
         gdspy.hidden := a |}
  end.

(** A quarter turn of [p] about [c], counter-clockwise, [k] times. *)
Fixpoint turn (k : nat) (c p : point) : point :=
  match k with
  | O => p
  | S k' =>
      let q := turn k' c p in
      (fst c - (snd q - snd c), snd c + (fst q - fst c))
  end.

Definition quarter_turns (angle : Q) : nat :=
  Z.to_nat (Qfloor (angle / (np.pi / 2) + 0.5) mod 4).

Definition rotate (angle : Q) (center : point) (s : obj) : obj :=
  gdspy.set_polygons
    (map (map (turn (quarter_turns angle) center)) (gdspy.polygons s)) s.

(** Cutting a polygon in runs of at most 199 points. *)
Fixpoint pieces (fuel : nat) (p : polygon) : list polygon :=
  match fuel, p with
  | O, _ => []
  | _, [] => []
  | S fuel', _ => firstn 199 p :: pieces fuel' (skipn 199 p)
  end.

Definition fracture (s : obj) : obj :=
  gdspy.set_polygons
    (flat_map (fun p => pieces (List.length p) p) (gdspy.polygons s)) s.

Definition path_length (s : obj) : Q := length (gdspy.hidden s).

#[export] Instance kernel : gdspy.Kernel.
Proof.
  refine {| gdspy.state := attrs;
            gdspy.Path := Path;
            gdspy.segment := segment;
            gdspy.parametric := parametric;
            gdspy.L1Path := L1Path;
            gdspy.rotate := rotate;
            gdspy.fracture := fracture;
            gdspy.path_length := path_length |}.
  - abstract (intros; reflexivity).
  - abstract (intros; reflexivity).
  - abstract
      (intros s; unfold fracture; simpl;
       apply List.Forall_forall; intros p Hp;
       apply in_flat_map in Hp; destruct Hp as [p0 [_ Hp]];
       revert Hp; generalize (List.length p0) as fuel; intros fuel;
       revert p0;
       induction fuel as [|fuel IH]; intros p0 Hp; simpl in Hp;
       [ destruct Hp
       | destruct p0 as [|a l]; [destruct Hp|];
         destruct Hp as [Hp|Hp];
         [ subst p; rewrite length_firstn; lia
         | eapply IH; eassumption ] ]).
Defined.

#[export] Instance drawing : gdspy.Drawing.
Proof.
  refine {| gdspy.number_of_paths := n |}.
  - abstract (intros; reflexivity).
  - abstract (intros; reflexivity).
  - abstract
      (intros f k cap l d s _ _ _; eexists; split;
       [|unfold parametric; simpl; reflexivity]; discriminate).
Defined.

(** A square root to 30 binary digits; zero on a negative number. *)
Definition sqrt (q : Q) : Q :=
  let r := Qred q in
  Z.sqrt (Qnum r * Zpos (Qden r) * 4 ^ 30) # (Qden r * 2 ^ 30).

#[export] Instance numpy : np.Sqrt.
Proof.
  refine {| np.sqrt := sqrt |}.
  abstract
    (intros a b Hab; unfold sqrt; rewrite (Qred_complete a b Hab);
     reflexivity).
Defined.

(** The flip that has no result outside the four cardinal tags. *)
#[export] Instance toolkit : tk.Toolkit :=
  {| tk.flip_direction := tk.opposite;
     tk.flip_cardinal := fun d o H => H |}.

(** A waveguide template: a core 2 wide, a cladding 10 wide, on layer 1. *)
Definition wgt (r : string) : WaveguideTemplate :=
  {| wg_width := 2; clad_width := 10; resist := r; layer := 1; datatype := 0 |}.

(** The parameters of [gc1] and [gc2] of the script at the end of the
    source, on the port [(0, 0)], facing WEST and EAST. *)
Definition gc1 : GratingCoupler.t :=
  {| GratingCoupler.wgt := wgt "-";
     GratingCoupler.port := (0, 0);
     GratingCoupler.direction := "WEST";
     GratingCoupler.focus_distance := None;
     GratingCoupler.width := 20;
     GratingCoupler.length := 50;
     GratingCoupler.taper_length := 20;
     GratingCoupler.period := 1.0;
     GratingCoupler.dutycycle := 0.7;
     GratingCoupler.wavelength := 1.55;
     GratingCoupler.sin_theta := 0.13917310096006544;
     GratingCoupler.evaluations := 99 |}.

Definition gc2 : GratingCoupler.t :=
  {| GratingCoupler.wgt := wgt "-";
     GratingCoupler.port := (0, 0);
     GratingCoupler.direction := "EAST";
     GratingCoupler.focus_distance := Some 20.0;
     GratingCoupler.width := 20;
     GratingCoupler.length := 50;
     GratingCoupler.taper_length := 20;
     GratingCoupler.period := 1.0;
     GratingCoupler.dutycycle := 0.5;
     GratingCoupler.wavelength := 1.55;
     GratingCoupler.sin_theta := 0.13917310096006544;
     GratingCoupler.evaluations := 99 |}.

End Reference.


(** ** The vocabulary of the specification *)
Module Spec.
Import GratingCoupler.

(** The error kinds the validation reports. *)
Definition InvalidParameter (e : py.exn) : bool :=
  match e with
  | py.ValueError _ | py.AssertionError => true
  | _ => false
  end.

Definition dutycycle_in_range (self : t) : Prop :=
  0 <= dutycycle self /\ dutycycle self <= 1.

(** The focus distance is absent or strictly positive. *)
Definition focus_ok (self : t) : Prop :=
  match focus_distance self with
  | None => True
  | Some fd => 0 < fd
  end.

(** The share of a period a straight tooth covers: the dutycycle on the
    etch-negative resist, its complement on the etch-positive one. *)
Definition effective_duty (self : t) : Q :=
  if String.eqb (self_resist self) "-" then dc self else 1.0 - dc self.

(** [z] is an integer nearest to [x]. *)
Definition nearest (z : Z) (x : Q) : Prop :=
  Qabs (inject_Z z - x) <= 1 # 2.

(** The angle of the rotation for a direction, if any. *)
Definition rotation (d : string) : option Q :=
  if String.eqb d "WEST" then Some (np.pi / 2.0)
  else if String.eqb d "SOUTH" then Some np.pi
  else if String.eqb d "EAST" then Some (- np.pi / 2.0)
  else None.

(** The same arguments with another direction, resist or taper length. *)
Definition set_direction (d : string) (self : t) : t :=
  {| wgt := wgt self; port := port self; direction := d;
     focus_distance := focus_distance self; width := width self;
     length := length self; taper_length := taper_length self;
     period := period self; dutycycle := dutycycle self;
     wavelength := wavelength self; sin_theta := sin_theta self;
     evaluations := evaluations self |}.

Definition set_resist (r : string) (self : t) : t :=
  {| wgt := {| wg_width := wg_width (wgt self);
               clad_width := clad_width (wgt self);
               resist := r;
               layer := layer (wgt self);
               datatype := datatype (wgt self) |};
     port := port self; direction := direction self;
     focus_distance := focus_distance self; width := width self;
     length := length self; taper_length := taper_length self;
     period := period self; dutycycle := dutycycle self;
     wavelength := wavelength self; sin_theta := sin_theta self;
     evaluations := evaluations self |}.

Definition set_taper_length (l : Q) (self : t) : t :=
  {| wgt := wgt self; port := port self; direction := direction self;
     focus_distance := focus_distance self; width := width self;
     length := length self; taper_length := l;
     period := period self; dutycycle := dutycycle self;
     wavelength := wavelength self; sin_theta := sin_theta self;
     evaluations := evaluations self |}.

Section Builder.
Context `{K : gdspy.Kernel} `{S : np.Sqrt} `{T : tk.Toolkit}.

(** Construction fails with an invalid-parameter error exactly on a bad
    dutycycle or focus distance, and succeeds otherwise. *)
Definition construction_claim (self : t) : Prop :=
  ((exists e, fst (new self) = inl e /\ InvalidParameter e = true)
   <-> (~ dutycycle_in_range self \/ ~ focus_ok self))
  /\ (dutycycle_in_range self -> focus_ok self -> fst (new self) = inr tt).

(** What the two generators need besides valid parameters: a resist the
    straight generator knows, or a tooth path that holds a polygon when the
    loop of the lensed generator is over. *)
Definition buildable (self : t) : Prop :=
  match focus_distance self with
  | None => self_resist self = "-" \/ self_resist self = "+"
  | Some fd =>
      gdspy.polygons
        (curved_teeth self (Qfloor (length self / period self)) fd) <> []
  end.

(** The tooth index the loop starts from is the focus distance over the
    period, rounded. *)
Definition qmin_claim (self : t) : Prop :=
  forall fd, focus_distance self = Some fd -> 0 < fd ->
    nearest (qmin self fd) (fd / period self).

(** The taper path of a focusing grating has the taper length. *)
Definition taper_claim (self : t) : Prop :=
  forall fd teeth path,
    focus_distance self = Some fd -> 0 < fd ->
    shapes self = inr (Some (teeth, path)) ->
    gdspy.path_length path == taper_length self.

(** The tooth path is closed by appending the two points at the port to
    its first polygon. *)
Definition closing_claim (self : t) (teeth : gdspy.shape) : Prop :=
  forall first others,
    gdspy.polygons teeth = first :: others ->
    close_first self teeth
    = inr (gdspy.set_polygons
             ((first
               ++ [(fst (port self) + 0.5 * wg_width (wgt self),
                    snd (port self));
                   (fst (port self) - 0.5 * wg_width (wgt self),
                    snd (port self))])
              :: others)
             teeth).

(** The curve of the tooth [q] in the words of the specification. *)
Definition claimed_curve (self : t) (q : Z) (t : Q) : point :=
  let neff := wavelength self / period self + sin_theta self in
  let c3 := neff ^ 2 - sin_theta self ^ 2 in
  let w := width self / 2 in
  let c1 := inject_Z q * wavelength self * sin_theta self in
  let c2 := (inject_Z q * wavelength self) ^ 2 in
  (width self * t - w,
   (c1 + neff * np.sqrt (c2 - c3 * (width self * t - w) ^ 2)) / c3).

(** The integers from [lo] to [lo + n - 1]. *)
Definition consecutive (lo n : Z) : list Z :=
  map (fun i : nat => (lo + Z.of_nat i)%Z) (seq 0 (Z.to_nat n)).

(** A path of width period * dc at the port on which, for each index in
    turn, one [parametric] call draws the curve of that index as its centre
    line, with the configured number of evaluations and a cap of 199 points,
    and the pen is put back on the port. *)
Definition drawn_teeth (self : t) (indices : list Z) : gdspy.shape :=
  fold_left
    (fun (teeth : gdspy.shape) (q : Z) =>
       gdspy.set_y (snd (port self))
         (gdspy.set_x (fst (port self))
            (gdspy.parametric (curve self q) (evaluations self) 199
               (spec_layer self) (spec_datatype self) teeth)))
    indices
    (gdspy.Path (period self * dc self) (port self) 1 0).

(** The cell of a successful construction. *)
Definition built (self : t) (tp : gdspy.shape * gdspy.shape) : Cell :=
  {| elements := [fst (orient self tp); snd (orient self tp)];
     portlist :=
       {[ "output" :=
            {| Port.port := port self;
               Port.direction := tk.flip_direction (direction self) |} ]} |}.

End Builder.

(** A straight grating with a period of zero. *)
Definition zero_period : t :=
  {| wgt := Reference.wgt "-"; port := (0, 0); direction := "WEST";
     focus_distance := None; width := 20; length := 50; taper_length := 20;
     period := 0; dutycycle := 0.7; wavelength := 1.55;
     sin_theta := 0.125; evaluations := 99 |}.

(** A focusing grating of three teeth, each curve evaluated three times. *)
Definition small_lensed : t :=
  {| wgt := Reference.wgt "-"; port := (0, 0); direction := "NORTH";
     focus_distance := Some 2.0; width := 20; length := 3; taper_length := 20;
     period := 1.0; dutycycle := 0.5; wavelength := 1.55;
     sin_theta := 0.125; evaluations := 3 |}.

(** The same with a period of 0.1 and a focus distance of 0.25. *)
Definition tenth_period : t :=
  {| wgt := Reference.wgt "-"; port := (0, 0); direction := "NORTH";
     focus_distance := Some 0.25; width := 20; length := 3; taper_length := 20;
     period := 0.1; dutycycle := 0.5; wavelength := 1.55;
     sin_theta := 0.125; evaluations := 3 |}.

(** The same with the length and the period negated and a focus distance
    of 2.7. *)
Definition negative_period : t :=
  {| wgt := Reference.wgt "-"; port := (0, 0); direction := "NORTH";
     focus_distance := Some 2.7; width := 20; length := -3; taper_length := 20;
     period := -1.0; dutycycle := 0.5; wavelength := 1.55;
     sin_theta := 0.125; evaluations := 3 |}.

(** A focusing grating shorter than its period. *)
Definition short_lensed : t :=
  {| wgt := Reference.wgt "-"; port := (0, 0); direction := "EAST";
     focus_distance := Some 20.0; width := 20; length := 0.5;
     taper_length := 20; period := 1.0; dutycycle := 0.5; wavelength := 1.55;
     sin_theta := 0.125; evaluations := 99 |}.

(** A focus distance of zero. *)
Definition zero_focus : t :=
  {| wgt := Reference.wgt "-"; port := (0, 0); direction := "EAST";
     focus_distance := Some 0; width := 20; length := 50;
     taper_length := 20; period := 1.0; dutycycle := 0.5; wavelength := 1.55;
     sin_theta := 0.125; evaluations := 99 |}.

End Spec.

(** ** Further vocabulary: variations of the arguments *)
Module Variation.
Import GratingCoupler.

(** The same arguments with another wavelength, sine of the incidence
    angle and number of evaluations: the parameters the docstring reserves
    to the focusing grating. *)
Definition set_focusing (wl st : Q) (ev : Z) (self : t) : t :=
  {| wgt := wgt self; port := port self; direction := direction self;
     focus_distance := focus_distance self; width := width self;
     length := length self; taper_length := taper_length self;
     period := period self; dutycycle := dutycycle self;
     wavelength := wl; sin_theta := st; evaluations := ev |}.

(** The same arguments on a template with another cladding width. *)
Definition set_clad_width (v : Q) (self : t) : t :=
  {| wgt := {| wg_width := wg_width (wgt self);
               clad_width := v;
               resist := resist (wgt self);
               layer := layer (wgt self);
               datatype := datatype (wgt self) |};
     port := port self; direction := direction self;
     focus_distance := focus_distance self; width := width self;
     length := length self; taper_length := taper_length self;
     period := period self; dutycycle := dutycycle self;
     wavelength := wavelength self; sin_theta := sin_theta self;
     evaluations := evaluations self |}.

(** The argument of the square root in the curve of the tooth [q]. *)
Definition radicand (self : t) (q : Z) (t : Q) : Q :=
  c2 self q - c3 self * (width self * t - w self) ^ 2.

End Variation.

(** * Properties *)

(** ** Python primitives *)
Section PyFacts.

Lemma py_lt_iff (a b : Q) : py.lt a b = true <-> a < b.
Proof.
  unfold py.lt. rewrite negb_true_iff. split.
  - intros H. apply Qnot_le_lt. intros Hle.
    apply Qle_bool_iff in Hle. congruence.
  - intros H. destruct (Qle_bool b a) eqn:E; [|reflexivity].
    apply Qle_bool_iff in E. lra.
Qed.

Lemma py_gt_iff (a b : Q) : py.gt a b = true <-> b < a.
Proof. unfold py.gt. apply py_lt_iff. Qed.

Lemma py_int_inject_Z (z : Z) : py.int (inject_Z z) = z.
Proof. unfold py.int. simpl. apply Z.quot_1_r. Qed.

Lemma py_int_nonneg (q : Q) : 0 <= q -> py.int q = Qfloor q.
Proof.
  destruct q as [n d]. unfold Qle, py.int, Qfloor. simpl. intros H.
  apply Z.quot_div_nonneg; lia.
Qed.

Lemma py_floordiv_ok (a b : Q) :
  ~ b == 0 -> py.floordiv a b = inr (inject_Z (Qfloor (a / b))).
Proof.
  intros Hb. unfold py.floordiv.
  destruct (Qeq_bool b 0) eqn:E; [|reflexivity].
  apply Qeq_bool_iff in E. contradiction.
Qed.

Lemma py_floordiv_zero (a b : Q) :
  b == 0 -> py.floordiv a b = inl py.ZeroDivisionError.
Proof.
  intros Hb. unfold py.floordiv.
  apply Qeq_bool_iff in Hb. rewrite Hb. reflexivity.
Qed.

Lemma py_range_length (lo hi : Z) :
  List.length (py.range lo hi) = Z.to_nat (hi - lo).
Proof. unfold py.range. rewrite length_map, length_seq. reflexivity. Qed.

Lemma double_proper (a b : Q) : a == b -> py.double a = py.double b.
Proof.
  intros H. unfold py.double. rewrite (Qred_complete a b H). reflexivity.
Qed.

Lemma round_half_even_nonneg (p q : Z) :
  (0 <= p)%Z -> (0 < q)%Z -> (0 <= py.round_half_even p q)%Z.
Proof.
  intros Hp Hq. unfold py.round_half_even.
  pose proof (Z.div_pos p q Hp Hq) as Hk.
  destruct (2 * (p mod q) ?= q)%Z; [destruct (Z.even (p / q))| |]; lia.
Qed.

Lemma magnitude_nonneg (a d : Z) :
  (0 < a)%Z -> (0 < d)%Z -> 0 <= py.magnitude a d.
Proof.
  intros Ha Hd. unfold py.magnitude.
  destruct (0 <=? 52 - py.exponent a d)%Z eqn:E.
  - apply Z.leb_le in E.
    assert (0 < 2 ^ (52 - py.exponent a d))%Z as Hpow
      by (apply Z.pow_pos_nonneg; lia).
    apply Qle_shift_div_l.
    + change 0 with (inject_Z 0). rewrite <- Zlt_Qlt. exact Hpow.
    + rewrite Qmult_0_l. change 0 with (inject_Z 0). rewrite <- Zle_Qle.
      apply round_half_even_nonneg; lia.
  - apply Z.leb_gt in E.
    assert (0 < 2 ^ (- (52 - py.exponent a d)))%Z as Hpow
      by (apply Z.pow_pos_nonneg; lia).
    change 0 with (inject_Z 0). rewrite <- Zle_Qle.
    apply Z.mul_nonneg_nonneg; [|lia].
    apply round_half_even_nonneg; lia.
Qed.

Lemma double_nonneg (x : Q) : 0 <= x -> 0 <= py.double x.
Proof.
  intros Hx. unfold py.double.
  assert (0 <= Qred x) as Hr by (rewrite Qred_correct; exact Hx).
  destruct (Qred x) as [num den]. simpl.
  destruct num as [|a|a].
  - apply Qle_refl.
  - apply magnitude_nonneg; lia.
  - unfold Qle in Hr. simpl in Hr. lia.
Qed.

End PyFacts.

(** ** The constructor, step by step *)
Section Constructor.
Context `{K : gdspy.Kernel} `{S : np.Sqrt} `{T : tk.Toolkit}.
Import GratingCoupler Spec.

Lemma dutycycle_test (self : t) :
  py.gt (dutycycle self) 1.0 || py.lt (dutycycle self) 0.0 = false
  <-> dutycycle_in_range self.
Proof.
  unfold dutycycle_in_range. rewrite orb_false_iff. split.
  - intros [H1 H2]. split.
    + destruct (Qlt_le_dec (dutycycle self) 0) as [Hlt|Hle]; [|exact Hle].
      assert (py.lt (dutycycle self) 0.0 = true) as E
        by (apply py_lt_iff; lra).
      congruence.
    + destruct (Qlt_le_dec 1 (dutycycle self)) as [Hlt|Hle]; [|exact Hle].
      assert (py.gt (dutycycle self) 1.0 = true) as E
        by (apply py_gt_iff; lra).
      congruence.
  - intros [H1 H2]. split.
    + destruct (py.gt (dutycycle self) 1.0) eqn:E; [|reflexivity].
      apply py_gt_iff in E. lra.
    + destruct (py.lt (dutycycle self) 0.0) eqn:E; [|reflexivity].
      apply py_lt_iff in E. lra.
Qed.

Lemma new_out_of_range (self : t) :
  ~ dutycycle_in_range self ->
  exists msg, new self = (inl (py.ValueError msg), empty_cell).
Proof.
  intros H. unfold new, __init__.
  destruct (py.gt (dutycycle self) 1.0 || py.lt (dutycycle self) 0.0) eqn:E.
  - eexists. reflexivity.
  - apply dutycycle_test in E. contradiction.
Qed.

Lemma new_in_range (self : t) :
  dutycycle_in_range self ->
  new self =
  match shapes self with
  | inl e => (inl e, empty_cell)
  | inr None => (inl (py.UnboundLocalError "teeth"), empty_cell)
  | inr (Some tp) => (inr tt, built self tp)
  end.
Proof.
  intros H. apply dutycycle_test in H. unfold new, __init__. rewrite H.
  unfold build_cell, build_ports, bind, lift, locals, ret, raise, add, set_port.
  destruct (shapes self) as [e|[tp|]]; reflexivity.
Qed.

Lemma num_teeth_ok (self : t) :
  ~ period self == 0 ->
  num_teeth self = inr (Qfloor (length self / period self)).
Proof.
  intros H. unfold num_teeth. rewrite (py_floordiv_ok _ _ H).
  rewrite py_int_inject_Z. reflexivity.
Qed.

Lemma shapes_zero_period (self : t) :
  period self == 0 -> shapes self = inl py.ZeroDivisionError.
Proof.
  intros H. unfold shapes, num_teeth. rewrite (py_floordiv_zero _ _ H).
  reflexivity.
Qed.

Lemma shapes_straight (self : t) :
  ~ period self == 0 -> focus_distance self = None ->
  shapes self = inr (straight self (Qfloor (length self / period self))).
Proof.
  intros Hp Hf. unfold shapes. rewrite (num_teeth_ok _ Hp), Hf. reflexivity.
Qed.

Lemma shapes_lensed (self : t) (fd : Q) :
  ~ period self == 0 -> focus_distance self = Some fd ->
  shapes self =
  match lensed self (Qfloor (length self / period self)) fd with
  | inl e => inl e
  | inr tp => inr (Some tp)
  end.
Proof.
  intros Hp Hf. unfold shapes. rewrite (num_teeth_ok _ Hp), Hf. reflexivity.
Qed.

Lemma lensed_not_positive (self : t) (n : Z) (fd : Q) :
  ~ 0 < fd -> lensed self n fd = inl py.AssertionError.
Proof.
  intros H. unfold lensed.
  destruct (py.gt fd 0) eqn:E; [|reflexivity].
  apply py_gt_iff in E. contradiction.
Qed.

Lemma lensed_positive (self : t) (n : Z) (fd : Q) :
  0 < fd ->
  lensed self n fd =
  match close_first self (curved_teeth self n fd) with
  | inl e => inl e
  | inr teeth =>
      inr (gdspy.fracture teeth,
           gdspy.Path (wg_width (wgt self)) (port self) 1 0)
  end.
Proof.
  intros H. unfold lensed. apply py_gt_iff in H. rewrite H. reflexivity.
Qed.

Lemma close_first_error (self : t) (teeth : gdspy.shape) (e : py.exn) :
  close_first self teeth = inl e ->
  e = py.IndexError /\ gdspy.polygons teeth = [].
Proof.
  unfold close_first. destruct (gdspy.polygons teeth); intros H; inversion H.
  split; reflexivity.
Qed.

Lemma close_first_ok (self : t) (teeth : gdspy.shape) :
  gdspy.polygons teeth <> [] -> exists closed, close_first self teeth = inr closed.
Proof.
  unfold close_first. destruct (gdspy.polygons teeth); intros H.
  - contradiction.
  - eexists. reflexivity.
Qed.

Lemma straight_known (self : t) (n : Z) :
  self_resist self = "-" \/ self_resist self = "+" ->
  exists tp, straight self n = Some tp.
Proof.
  intros [H|H]; unfold straight; rewrite H; simpl; eexists; reflexivity.
Qed.

(** Every way the constructor can fail, and what it leaves behind. *)
Lemma new_failure (self : t) (e : py.exn) :
  fst (new self) = inl e ->
  snd (new self) = empty_cell
  /\ ((exists msg, e = py.ValueError msg) -> ~ dutycycle_in_range self)
  /\ (e = py.AssertionError ->
      dutycycle_in_range self /\ ~ period self == 0 /\ ~ focus_ok self).
Proof.
  intros H.
  destruct (dutycycle_test self) as [Hin _].
  destruct (py.gt (dutycycle self) 1.0 || py.lt (dutycycle self) 0.0) eqn:E.
  - assert (~ dutycycle_in_range self) as Hout.
    { intros Hr. apply dutycycle_test in Hr. congruence. }
    destruct (new_out_of_range self Hout) as [msg Hn]. rewrite Hn in *.
    simpl in H. inversion H; subst e.
    split; [reflexivity|]. split; [intros _; exact Hout|].
    intros He. discriminate He.
  - specialize (Hin eq_refl). rewrite (new_in_range self Hin) in *.
    assert (forall msg, e = py.ValueError msg -> shapes self = inl e -> False)
      as NoValue.
    { intros msg -> Hs. unfold shapes, num_teeth, py.floordiv in Hs.
      destruct (Qeq_bool (period self) 0); [discriminate|].
      destruct (focus_distance self) as [fd|]; [|discriminate].
      unfold lensed in Hs. destruct (negb (py.gt fd 0)); [discriminate|].
      destruct (close_first self _) eqn:Ec; [|discriminate].
      apply close_first_error in Ec. destruct Ec as [-> _]. discriminate. }
    destruct (shapes self) as [e'|[tp|]] eqn:Es; simpl in H.
    + inversion H; subst e'. split; [reflexivity|]. split.
      * intros [msg He]. exfalso. eapply NoValue; eauto.
      * intros ->. split; [exact Hin|].
        destruct (Qeq_dec (period self) 0) as [Hz|Hz].
        { rewrite (shapes_zero_period _ Hz) in Es. discriminate. }
        split; [exact Hz|]. unfold focus_ok.
        destruct (focus_distance self) as [fd|] eqn:Ef.
        -- intros Hfd. rewrite (shapes_lensed _ fd Hz Ef) in Es.
           rewrite (lensed_positive _ _ _ Hfd) in Es.
           destruct (close_first self _) eqn:Ec; [|discriminate].
           apply close_first_error in Ec. destruct Ec as [-> _]. discriminate.
        -- rewrite (shapes_straight _ Hz Ef) in Es. discriminate.
    + discriminate.
    + inversion H; subst e. split; [reflexivity|]. split.
      * intros [msg He]. discriminate.
      * intros He. discriminate.
Qed.

Lemma new_bad_focus (self : t) :
  dutycycle_in_range self -> ~ period self == 0 -> ~ focus_ok self ->
  new self = (inl py.AssertionError, empty_cell).
Proof.
  intros Hin Hp Hf. rewrite (new_in_range _ Hin). unfold focus_ok in Hf.
  destruct (focus_distance self) as [fd|] eqn:Ef; [|tauto].
  rewrite (shapes_lensed _ fd Hp Ef), (lensed_not_positive _ _ _ Hf).
  reflexivity.
Qed.

Lemma new_buildable (self : t) :
  dutycycle_in_range self -> ~ period self == 0 -> focus_ok self ->
  buildable self ->
  exists tp, shapes self = inr (Some tp) /\ new self = (inr tt, built self tp).
Proof.
  intros Hin Hp Hf Hb. rewrite (new_in_range _ Hin).
  unfold focus_ok in Hf. unfold buildable in Hb.
  destruct (focus_distance self) as [fd|] eqn:Ef.
  - rewrite (shapes_lensed _ fd Hp Ef), (lensed_positive _ _ _ Hf).
    destruct (close_first_ok self _ Hb) as [closed Hc]. rewrite Hc.
    eexists. split; reflexivity.
  - rewrite (shapes_straight _ Hp Ef).
    destruct (straight_known self (Qfloor (length self / period self)) Hb)
      as [tp Htp].
    rewrite Htp. exists tp. split; reflexivity.
Qed.

Lemma tooth_indices_range (self : t) (n : Z) (fd : Q) :
  tooth_indices self n fd
  = map (fun i : nat => (qmin self fd + Z.of_nat i)%Z) (seq 0 (Z.to_nat n)).
Proof.
  unfold tooth_indices, py.range.
  replace (qmin self fd + n - qmin self fd)%Z with n by lia. reflexivity.
Qed.

Lemma curved_teeth_drawn (self : t) (n : Z) (fd : Q) :
  curved_teeth self n fd = drawn_teeth self (consecutive (qmin self fd) n).
Proof.
  unfold curved_teeth, drawn_teeth, consecutive.
  rewrite tooth_indices_range. reflexivity.
Qed.

Lemma new_success (self : t) (c : Cell) :
  new self = (inr tt, c) ->
  exists tp, shapes self = inr (Some tp) /\ c = built self tp.
Proof.
  intros H.
  destruct (py.gt (dutycycle self) 1.0 || py.lt (dutycycle self) 0.0) eqn:E.
  - unfold new, __init__ in H. rewrite E in H. discriminate H.
  - apply dutycycle_test in E. rewrite (new_in_range self E) in H.
    destruct (shapes self) as [e|[tp|]]; try discriminate H.
    inversion H. exists tp. split; reflexivity.
Qed.

End Constructor.

(** ** The constructor on a period of zero *)
(** C1 as stated fails on a period of zero: the dutycycle 0.7 is in range
    and no focus distance is given, yet the floor division raises
    [ZeroDivisionError]. *)
Lemma zero_period_not_constructed :
  ~ @Spec.construction_claim Reference.kernel Reference.numpy
      Reference.toolkit Spec.zero_period.
Proof.
  intros [_ H].
  assert (fst (@GratingCoupler.new Reference.kernel Reference.numpy
                 Reference.toolkit Spec.zero_period) = inr tt) as E.
  { apply H.
    - split; unfold Qle; simpl; lia.
    - exact I. }
  vm_compute in E. discriminate E.
Qed.

(** ** The straight grating *)
Section Straight.
Context `{K : gdspy.Kernel} `{S : np.Sqrt} `{T : tk.Toolkit}.
Import GratingCoupler Spec.



Lemma straight_teeth_shape (self : t) (n : Z)
  (teeth path : gdspy.shape) :
  straight self n = Some (teeth, path) ->
  teeth =
  gdspy.L1Path
    (fst (port self) - 0.5 * width self,
     taper_length self + snd (port self)
     + 0.5 * (inject_Z n - 1 + effective_duty self) * period self)
    "+x" (period self * effective_duty self) [width self] [] n
    (period self) (spec_layer self) (spec_datatype self).
Proof.
  unfold straight, effective_duty.
  destruct (String.eqb (self_resist self) "-").
  - intros H. inversion H. reflexivity.
  - destruct (String.eqb (self_resist self) "+"); intros H; inversion H.
    reflexivity.
Qed.

(** C4. In a straight grating, whichever of the two resists, the teeth are
    one row of [num_teeth] parallel paths along x, of length [width],
    [period] apart, each [period * effective_duty] thick; the axis of the
    row lies [taper_length + 0.5 * (num_teeth - 1 + effective_duty) * period]
    above the port, and the row extends as far on either side of the port in
    x. *)
Theorem straight_row (self : t) (teeth path : gdspy.shape) :
  focus_distance self = None ->
  shapes self = inr (Some (teeth, path)) ->
  exists n x0 y0,
    num_teeth self = inr n
    /\ teeth =
       gdspy.L1Path (x0, y0) "+x" (period self * effective_duty self)
         [width self] [] n (period self) (spec_layer self) (spec_datatype self)
    /\ y0 - snd (port self)
       == taper_length self
          + 0.5 * (inject_Z n - 1 + effective_duty self) * period self
    /\ fst (port self) - x0 == (x0 + width self) - fst (port self)
    /\ (effective_duty self = dc self /\ self_resist self = "-"
        \/ effective_duty self = 1.0 - dc self /\ self_resist self = "+").
Proof.
  intros Hf Hs. unfold shapes in Hs.
  destruct (num_teeth self) as [e|n] eqn:En; [discriminate|].
  rewrite Hf in Hs. inversion Hs as [Hst].
  pose proof (straight_teeth_shape _ _ _ _ Hst) as Ht.
  eexists. eexists. eexists.
  split; [reflexivity|]. split; [exact Ht|]. split; [|split].
  - ring.
  - ring.
  - unfold straight, effective_duty in *.
    destruct (String.eqb_spec (self_resist self) "-") as [E|E].
    + left. split; [reflexivity|exact E].
    + destruct (String.eqb_spec (self_resist self) "+") as [E'|E'].
      * right. split; [reflexivity|exact E'].
      * discriminate.
Qed.

End Straight.

Lemma straight_row_witness :
  exists n x0 y0,
    @GratingCoupler.num_teeth Reference.gc1 = inr n
    /\ y0 - snd (GratingCoupler.port Reference.gc1)
       == GratingCoupler.taper_length Reference.gc1
          + 0.5 * (inject_Z n - 1 + Spec.effective_duty Reference.gc1)
            * GratingCoupler.period Reference.gc1
    /\ fst (GratingCoupler.port Reference.gc1) - x0
       == (x0 + GratingCoupler.width Reference.gc1)
          - fst (GratingCoupler.port Reference.gc1).
Proof.
  destruct (@GratingCoupler.shapes Reference.kernel Reference.numpy
              Reference.gc1) as [e|[[teeth path]|]] eqn:E.
  - vm_compute in E. discriminate E.
  - destruct (@straight_row Reference.kernel Reference.numpy Reference.gc1
                teeth path eq_refl E) as [n [x0 [y0 [Hn [_ [Hy [Hx _]]]]]]].
    exists n, x0, y0. split; [exact Hn|]. split; [exact Hy|exact Hx].
  - vm_compute in E. discriminate E.
Defined.

(** ** The lensed grating *)
Section Lensed.
Context `{K : gdspy.Kernel} `{S : np.Sqrt} `{T : tk.Toolkit}.
Import GratingCoupler Spec.

Lemma py_range_In (lo hi q : Z) :
  In q (py.range lo hi) <-> (lo <= q < hi)%Z.
Proof.
  unfold py.range. rewrite in_map_iff. split.
  - intros [i [Hq Hi]]. apply in_seq in Hi. lia.
  - intros H. exists (Z.to_nat (q - lo)). split; [lia|].
    apply in_seq. lia.
Qed.

Lemma consecutive_In (lo n q : Z) :
  In q (consecutive lo n) <-> (lo <= q <= lo + n - 1)%Z.
Proof.
  unfold consecutive. rewrite in_map_iff. split.
  - intros [i [Hq Hi]]. apply in_seq in Hi. lia.
  - intros H. exists (Z.to_nat (q - lo)). split; [lia|].
    apply in_seq. lia.
Qed.

Lemma floor_half_nearest (x : Q) : nearest (Qfloor (x + (1 # 2))) x.
Proof.
  unfold nearest.
  pose proof (Qfloor_le (x + (1 # 2))) as Hle.
  pose proof (Qlt_floor (x + (1 # 2))) as Hlt.
  rewrite inject_Z_plus in Hlt. change (inject_Z 1) with 1 in Hlt.
  apply Qabs_Qle_condition. split; lra.
Qed.

(** With a positive period and focus distance [qmin] is not negative. *)
Lemma qmin_nonneg (self : t) (fd : Q) :
  0 < fd -> 0 < period self -> (0 <= qmin self fd)%Z.
Proof.
  intros Hfd Hp. unfold qmin.
  pose proof (double_nonneg (period self) (Qlt_le_weak _ _ Hp)) as H1.
  pose proof (double_nonneg fd (Qlt_le_weak _ _ Hfd)) as H0.
  assert (0 <= py.double fd / py.double (period self)) as H2.
  { unfold Qdiv. apply Qmult_le_0_compat; [exact H0|].
    apply Qinv_le_0_compat. exact H1. }
  pose proof (double_nonneg _ H2) as H3.
  assert (0 <= py.double (py.double fd / py.double (period self)) + 0.5)
    as H4 by lra.
  pose proof (double_nonneg _ H4) as H5.
  rewrite (py_int_nonneg _ H5).
  change 0%Z with (Qfloor 0). apply Qfloor_resp_le. exact H5.
Qed.

(** When the focus distance, the period, the quotient and the sum are
    doubles, [qmin] is the quotient rounded half up. *)
Lemma qmin_exact (self : t) (fd : Q) :
  0 < fd -> 0 < period self ->
  py.double fd == fd ->
  py.double (period self) == period self ->
  py.double (fd / period self) == fd / period self ->
  py.double (fd / period self + 0.5) == fd / period self + 0.5 ->
  qmin self fd = Qfloor (fd / period self + (1 # 2))
  /\ nearest (qmin self fd) (fd / period self).
Proof.
  intros Hfd Hp H0 H1 H2 H3.
  assert (0 <= fd / period self) as Hx.
  { apply Qlt_le_weak. apply Qlt_shift_div_l; lra. }
  assert (qmin self fd = Qfloor (fd / period self + (1 # 2))) as Hq.
  { unfold qmin.
    assert (py.double fd / py.double (period self) == fd / period self)
      as E1 by (rewrite H0, H1; reflexivity).
    rewrite (double_proper _ _ E1).
    assert (py.double (fd / period self) + 0.5 == fd / period self + 0.5)
      as E2 by (rewrite H2; reflexivity).
    rewrite (double_proper _ _ E2).
    assert (0 <= py.double (fd / period self + 0.5)) as Hpos
      by (rewrite H3; lra).
    rewrite (py_int_nonneg _ Hpos). apply Qfloor_comp.
    rewrite H3. ring. }
  split; [exact Hq|]. rewrite Hq. apply floor_half_nearest.
Qed.

Lemma curve_as_claimed (self : t) (q : Z) (t : Q) :
  fst (curve self q t) == fst (claimed_curve self q t)
  /\ snd (curve self q t) == snd (claimed_curve self q t).
Proof.
  unfold curve, claimed_curve, w, c1, c2, c3, neff. simpl. split.
  - field.
  - assert (np.sqrt
              ((inject_Z q * wavelength self) ^ 2
               - ((wavelength self / period self + sin_theta self) ^ 2
                  - sin_theta self ^ 2)
                 * (width self * t - 0.5 * width self) ^ 2)
            == np.sqrt
                 ((inject_Z q * wavelength self) ^ 2
                  - ((wavelength self / period self + sin_theta self) ^ 2
                     - sin_theta self ^ 2)
                    * (width self * t - width self / 2) ^ 2)) as E.
    { apply np.sqrt_proper.
      assert (width self * t - 0.5 * width self
              == width self * t - width self / 2) as Ew by field.
      rewrite Ew. reflexivity. }
    rewrite E. reflexivity.
Qed.

(** The shapes of a focusing grating that was built. *)
Lemma shapes_lensed_built (self : t) (fd : Q) (teeth path : gdspy.shape) :
  focus_distance self = Some fd ->
  shapes self = inr (Some (teeth, path)) ->
  0 < fd
  /\ exists n first others,
       num_teeth self = inr n
       /\ gdspy.polygons (curved_teeth self n fd) = first :: others
       /\ teeth =
          gdspy.fracture
            (gdspy.set_polygons
               ((py.slice_to (evaluations self) first
                 ++ [(fst (port self) + 0.5 * wg_width (wgt self),
                      snd (port self));
                     (fst (port self) - 0.5 * wg_width (wgt self),
                      snd (port self))])
                :: others)
               (curved_teeth self n fd))
       /\ path = gdspy.Path (wg_width (wgt self)) (port self) 1 0.
Proof.
  intros Hf Hs. unfold shapes in Hs.
  destruct (num_teeth self) as [e|n] eqn:En; [discriminate|].
  rewrite Hf in Hs. unfold lensed in Hs.
  destruct (py.gt fd 0) eqn:Eg; simpl in Hs; [|discriminate].
  apply py_gt_iff in Eg. split; [exact Eg|].
  unfold close_first in Hs.
  destruct (gdspy.polygons (curved_teeth self n fd)) as [|first others] eqn:Ep;
    [discriminate|].
  inversion Hs. exists n, first, others.
  split; [reflexivity|]. split; [exact Ep|]. split; reflexivity.
Qed.

Lemma taper_length_unused (self : t) (l : Q) (fd : Q) :
  focus_distance self = Some fd ->
  new (set_taper_length l self) = new self.
Proof.
  intros Hf. unfold new, __init__, build_cell, shapes. simpl.
  rewrite Hf. reflexivity.
Qed.

(** C2, as amended. In a focusing grating with a positive period that the
    builder builds, the teeth handed to [fracture] are the tooth path, a path
    of width period * dc at the port, after one [parametric] call for each
    index q from [qmin] to [qmin + num_teeth - 1], in this order, its first
    polygon closed onto the port. The call for q draws, as the centre line of
    the path, the curve x(t) = width*t - w,
    y(t) = (c1 + neff*sqrt(c2 - c3*(width*t - w)^2)) / c3 with
    neff = wavelength/period + sin_theta, c3 = neff^2 - sin_theta^2,
    w = width/2, c1 = q*wavelength*sin_theta and c2 = (q*wavelength)^2, with
    the configured number of evaluations (99 by default) and a cap of 199
    points. [qmin] is int(focus_distance / float(period) + 0.5) in doubles: it
    is not negative, and it is the quotient rounded half up (an integer
    nearest to it) whenever the focus distance, the period, the quotient and
    the sum are doubles. *)
Theorem lensed_quantities (self : t) (fd : Q) (teeth path : gdspy.shape) :
  focus_distance self = Some fd -> 0 < period self ->
  shapes self = inr (Some (teeth, path)) ->
  exists n first others,
    num_teeth self = inr n
    /\ gdspy.polygons (drawn_teeth self (consecutive (qmin self fd) n))
       = first :: others
    /\ teeth
       = gdspy.fracture
           (gdspy.set_polygons
              ((py.slice_to (evaluations self) first
                ++ [(fst (port self) + 0.5 * wg_width (wgt self),
                     snd (port self));
                    (fst (port self) - 0.5 * wg_width (wgt self),
                     snd (port self))])
               :: others)
              (drawn_teeth self (consecutive (qmin self fd) n)))
    /\ (forall q, In q (consecutive (qmin self fd) n)
                  <-> (qmin self fd <= q <= qmin self fd + n - 1)%Z)
    /\ (forall q t,
          fst (curve self q t) == fst (claimed_curve self q t)
          /\ snd (curve self q t) == snd (claimed_curve self q t))
    /\ (0 <= qmin self fd)%Z
    /\ (py.double fd == fd ->
        py.double (period self) == period self ->
        py.double (fd / period self) == fd / period self ->
        py.double (fd / period self + 0.5) == fd / period self + 0.5 ->
        qmin self fd = Qfloor (fd / period self + (1 # 2))
        /\ nearest (qmin self fd) (fd / period self))
    /\ (forall wg, evaluations (defaults wg) = 99%Z).
Proof.
  intros Hf Hp Hs.
  destruct (shapes_lensed_built self fd teeth path Hf Hs)
    as [Hfd [n [first [others [Hn [Hpoly [Ht _]]]]]]].
  rewrite curved_teeth_drawn in Hpoly, Ht.
  exists n, first, others.
  split; [exact Hn|]. split; [exact Hpoly|]. split; [exact Ht|].
  split; [intros q; apply consecutive_In|].
  split; [intros q t; apply curve_as_claimed|].
  split; [apply (qmin_nonneg self fd Hfd Hp)|].
  split; [apply (qmin_exact self fd Hfd Hp)|].
  reflexivity.
Qed.

(** C5, as amended. In a focusing grating the path is a new path of the
    native waveguide width at the port, to which no segment is added: it
    holds no polygon, its length is zero, and the construction does not
    depend on the taper length. *)
Theorem lensed_path_empty (self : t) (fd : Q) (teeth path : gdspy.shape) :
  focus_distance self = Some fd ->
  shapes self = inr (Some (teeth, path)) ->
  0 < fd
  /\ path = gdspy.Path (wg_width (wgt self)) (port self) 1 0
  /\ gdspy.polygons path = []
  /\ gdspy.path_length path == 0
  /\ (forall l, new (set_taper_length l self) = new self).
Proof.
  intros Hf Hs.
  destruct (shapes_lensed_built self fd teeth path Hf Hs)
    as [Hfd [n [first [others [_ [_ [_ Hpath]]]]]]].
  split; [exact Hfd|]. split; [exact Hpath|]. subst path.
  split; [apply gdspy.Path_polygons|]. split; [apply gdspy.Path_length|].
  intros l. apply (taper_length_unused self l fd Hf).
Qed.

Lemma slice_to_all {A : Type} (k : Z) (l : list A) :
  (Z.of_nat (List.length l) <= k)%Z -> py.slice_to k l = l.
Proof.
  intros H. unfold py.slice_to.
  destruct (0 <=? k)%Z eqn:E.
  - apply firstn_all2. lia.
  - apply Z.leb_gt in E. lia.
Qed.

(** C6, as amended. In a focusing grating, once the loop has produced the
    curved teeth, the first polygon of the tooth path becomes its first
    [evaluations] points followed by exactly the two points
    (port_x + 0.5*wg_width, port_y) and (port_x - 0.5*wg_width, port_y), the
    other polygons being kept (the two points are appended to the whole
    first polygon when it has no more than [evaluations] points); the tooth
    path is then fractured, and none of its polygons has more than 199
    points. *)
Theorem closed_and_fractured (self : t) (fd : Q) (teeth path : gdspy.shape) :
  focus_distance self = Some fd ->
  shapes self = inr (Some (teeth, path)) ->
  exists n first others closed,
    num_teeth self = inr n
    /\ gdspy.polygons (curved_teeth self n fd) = first :: others
    /\ closed
       = py.slice_to (evaluations self) first
         ++ [(fst (port self) + 0.5 * wg_width (wgt self), snd (port self));
             (fst (port self) - 0.5 * wg_width (wgt self), snd (port self))]
    /\ ((Z.of_nat (List.length first) <= evaluations self)%Z ->
        closed
        = first
          ++ [(fst (port self) + 0.5 * wg_width (wgt self), snd (port self));
              (fst (port self) - 0.5 * wg_width (wgt self), snd (port self))])
    /\ teeth
       = gdspy.fracture
           (gdspy.set_polygons (closed :: others) (curved_teeth self n fd))
    /\ Forall (fun p : polygon => (List.length p <= 199)%nat)
              (gdspy.polygons teeth).
Proof.
  intros Hf Hs.
  destruct (shapes_lensed_built self fd teeth path Hf Hs)
    as [_ [n [first [others [Hn [Hp [Ht _]]]]]]].
  exists n, first, others. eexists.
  split; [exact Hn|]. split; [exact Hp|]. split; [reflexivity|]. split.
  - intros Hlen. rewrite (slice_to_all _ _ Hlen). reflexivity.
  - split; [exact Ht|]. rewrite Ht. apply gdspy.fracture_max_points.
Qed.

(** C9. The curve of every tooth is symmetric about x = 0 relative to the
    port: x(1 - t) = - x(t) and y(1 - t) = y(t), for every t. *)
Theorem curve_symmetric (self : t) (q : Z) (t : Q) :
  fst (curve self q (1 - t)) == - fst (curve self q t)
  /\ snd (curve self q (1 - t)) == snd (curve self q t).
Proof.
  unfold curve, w. simpl. split.
  - ring.
  - assert (np.sqrt (c2 self q
                     - c3 self * (width self * (1 - t) - 0.5 * width self) ^ 2)
            == np.sqrt (c2 self q
                        - c3 self * (width self * t - 0.5 * width self) ^ 2))
      as E.
    { apply np.sqrt_proper. ring. }
    rewrite E. reflexivity.
Qed.

End Lensed.

Lemma lensed_quantities_witness :
  GratingCoupler.qmin Spec.small_lensed 2.0
  = Qfloor (2.0 / GratingCoupler.period Spec.small_lensed + (1 # 2)).
Proof.
  destruct (@GratingCoupler.shapes Reference.kernel Reference.numpy
              Spec.small_lensed) as [e|[[teeth path]|]] eqn:E.
  - vm_compute in E. discriminate E.
  - destruct (@lensed_quantities Reference.kernel Reference.numpy
                Spec.small_lensed 2.0 teeth path eq_refl)
      as [n [first [others [_ [_ [_ [_ [_ [_ [Hq _]]]]]]]]]].
    + unfold Qlt; simpl; lia.
    + exact E.
    + apply Hq; vm_compute; reflexivity.
  - vm_compute in E. discriminate E.
Defined.

(** The sum is rounded: 0.49999999999999994 + 0.5 is the double 1.0, and
    [qmin] is 1 where the exact sum truncates to 0. *)
Example qmin_rounds_the_sum :
  GratingCoupler.qmin Spec.small_lensed
    (9007199254740991 # 18014398509481984) = 1%Z
  /\ Qfloor ((9007199254740991 # 18014398509481984)
             / GratingCoupler.period Spec.small_lensed + (1 # 2)) = 0%Z.
Proof. split; vm_compute; reflexivity. Qed.

(** The quotient is rounded: 0.25 / 0.1 is the double 2.5, although the
    double 0.1 is above one tenth, and [qmin] is 3. *)
Example qmin_rounds_the_quotient :
  GratingCoupler.qmin Spec.tenth_period 0.25 = 3%Z
  /\ py.double (py.double 0.25 / py.double 0.1) == 2.5
  /\ ~ py.double 0.1 == 0.1.
Proof.
  split; [vm_compute; reflexivity|]. split; [vm_compute; reflexivity|].
  vm_compute. discriminate.
Qed.

(** C2 as stated fails on a negative period: with a focus distance of 2.7
    and a period of -1 the quotient is -2.7 and [int(-2.7 + 0.5)] is -2,
    which is 0.7 away from it. *)
Lemma negative_period_not_rounded : ~ Spec.qmin_claim Spec.negative_period.
Proof.
  intros H. specialize (H 2.7 eq_refl).
  assert (0 < 2.7) as Hfd by (unfold Qlt; simpl; lia).
  specialize (H Hfd). vm_compute in H. apply H. reflexivity.
Qed.

(** The construction on that input succeeds all the same. *)
Example negative_period_built :
  fst (@GratingCoupler.new Reference.kernel Reference.numpy Reference.toolkit
         Spec.negative_period) = inr tt.
Proof. vm_compute. reflexivity. Qed.

Lemma lensed_path_empty_witness :
  @GratingCoupler.new Reference.kernel Reference.numpy Reference.toolkit
    (Spec.set_taper_length 5 Spec.small_lensed)
  = @GratingCoupler.new Reference.kernel Reference.numpy Reference.toolkit
      Spec.small_lensed.
Proof.
  destruct (@GratingCoupler.shapes Reference.kernel Reference.numpy
              Spec.small_lensed) as [e|[[teeth path]|]] eqn:E.
  - vm_compute in E. discriminate E.
  - destruct (@lensed_path_empty Reference.kernel Reference.numpy
                Reference.toolkit Spec.small_lensed 2.0 teeth path eq_refl E)
      as [_ [_ [_ [_ Hl]]]].
    apply Hl.
  - vm_compute in E. discriminate E.
Defined.

(** C5 as stated fails on [small_lensed]: its taper length is 20 and the
    length of its path is zero. *)
Lemma small_lensed_no_taper :
  ~ @Spec.taper_claim Reference.kernel Reference.numpy Spec.small_lensed.
Proof.
  unfold Spec.taper_claim. intros H.
  destruct (@GratingCoupler.shapes Reference.kernel Reference.numpy
              Spec.small_lensed) as [e|[[teeth path]|]] eqn:E.
  - vm_compute in E. discriminate E.
  - assert (0 < 2.0) as Hfd by (unfold Qlt; simpl; lia).
    specialize (H 2.0 teeth path eq_refl Hfd eq_refl).
    destruct (@shapes_lensed_built Reference.kernel Reference.numpy
                Spec.small_lensed 2.0 teeth path eq_refl E)
      as [_ [n [first [others [_ [_ [_ Hpath]]]]]]].
    subst path. rewrite gdspy.Path_length in H.
    vm_compute in H. discriminate H.
  - vm_compute in E. discriminate E.
Qed.

Lemma closed_and_fractured_witness :
  exists teeth path : @gdspy.shape Reference.kernel,
    @GratingCoupler.shapes Reference.kernel Reference.numpy Spec.small_lensed
    = inr (Some (teeth, path))
    /\ Forall (fun p : polygon => (List.length p <= 199)%nat)
              (gdspy.polygons teeth).
Proof.
  destruct (@GratingCoupler.shapes Reference.kernel Reference.numpy
              Spec.small_lensed) as [e|[[teeth path]|]] eqn:E.
  - vm_compute in E. discriminate E.
  - destruct (@closed_and_fractured Reference.kernel Reference.numpy
                Spec.small_lensed 2.0 teeth path eq_refl E)
      as [n [first [others [closed [_ [_ [_ [_ [_ Hb]]]]]]]]].
    exists teeth, path. split; [reflexivity|exact Hb].
  - vm_compute in E. discriminate E.
Defined.

(** C6 as stated fails on [small_lensed]: the first tooth has 2 * 3 points
    and the closed polygon has 3 + 2 points, not 6 + 2. *)
Lemma small_lensed_first_polygon_cut :
  ~ @Spec.closing_claim Reference.kernel Spec.small_lensed
      (@GratingCoupler.curved_teeth Reference.kernel Reference.numpy
         Spec.small_lensed 3 2.0).
Proof.
  unfold Spec.closing_claim. intros H.
  destruct (gdspy.polygons
              (@GratingCoupler.curved_teeth Reference.kernel Reference.numpy
                 Spec.small_lensed 3 2.0)) as [|first others] eqn:E.
  - vm_compute in E. discriminate E.
  - specialize (H first others eq_refl).
    vm_compute in E. inversion E; subst first others. clear E.
    apply (f_equal
             (fun r : py.exn + @gdspy.shape Reference.kernel =>
                match r with
                | inr s => map (@List.length point) (gdspy.polygons s)
                | inl _ => []
                end)) in H.
    vm_compute in H. discriminate H.
Qed.

(** On [small_lensed] each tooth has 2 * 3 points; the first polygon keeps
    3 of them and gains the two points at the port. *)
Example small_lensed_polygon_sizes :
  match @GratingCoupler.shapes Reference.kernel Reference.numpy
          Spec.small_lensed with
  | inr (Some (teeth, _)) =>
      map (@List.length point) (gdspy.polygons teeth)
  | _ => []
  end = [5%nat; 6%nat; 6%nat].
Proof. vm_compute. reflexivity. Qed.

(** ** The teeth that are drawn *)
Section Teeth.
Context `{K : gdspy.Kernel} `{S : np.Sqrt} `{T : tk.Toolkit}
        `{D : @gdspy.Drawing K}.
Import GratingCoupler Spec.

Lemma tooth_paths (self : t) (s : gdspy.shape) (q : Z) :
  gdspy.number_of_paths (gdspy.hidden (tooth self s q))
  = gdspy.number_of_paths (gdspy.hidden s).
Proof. unfold tooth. simpl. apply gdspy.parametric_number_of_paths. Qed.

Lemma tooth_draws (self : t) (s : gdspy.shape) (q : Z) :
  (2 <= evaluations self)%Z ->
  (1 <= gdspy.number_of_paths (gdspy.hidden s))%Z ->
  (List.length (gdspy.polygons s) + 1
   <= List.length (gdspy.polygons (tooth self s q)))%nat.
Proof.
  intros He Hn. unfold tooth. simpl.
  destruct (gdspy.parametric_draws (curve self q) (evaluations self)
              max_points (spec_layer self) (spec_datatype self) s He)
    as [new [Hnew Hp]]; [unfold max_points; lia|exact Hn|].
  rewrite Hp, length_app. destruct new; [contradiction|]. simpl. lia.
Qed.

(** Every turn of the loop adds at least one polygon to the tooth path. *)
Lemma loop_draws (self : t) (indices : list Z) :
  (2 <= evaluations self)%Z ->
  forall s : gdspy.shape,
    (1 <= gdspy.number_of_paths (gdspy.hidden s))%Z ->
    (List.length (gdspy.polygons s) + List.length indices
     <= List.length (gdspy.polygons (fold_left (tooth self) indices s)))%nat.
Proof.
  intros He. induction indices as [|q indices IH]; intros s Hn; simpl.
  - lia.
  - pose proof (tooth_draws self s q He Hn) as Hq.
    assert (1 <= gdspy.number_of_paths (gdspy.hidden (tooth self s q)))%Z
      as Hn' by (rewrite tooth_paths; exact Hn).
    specialize (IH (tooth self s q) Hn'). lia.
Qed.

Lemma curved_teeth_polygons (self : t) (n : Z) (fd : Q) :
  (2 <= evaluations self)%Z ->
  (Z.to_nat n <= List.length (gdspy.polygons (curved_teeth self n fd)))%nat.
Proof.
  intros He. unfold curved_teeth.
  pose proof (loop_draws self (tooth_indices self n fd) He
                (gdspy.Path (period self * dc self) (port self) 1 0)) as H.
  rewrite gdspy.Path_number_of_paths, gdspy.Path_polygons in H.
  rewrite tooth_indices_range, length_map, length_seq in H.
  rewrite tooth_indices_range. simpl in H. apply H. lia.
Qed.



(** C1, as amended. Construction fails with an invalid-parameter error
    ([ValueError] for the dutycycle, [AssertionError] for the focus distance)
    exactly when the dutycycle is outside [0,1], or the period is not zero
    and a focus distance is supplied that is not strictly positive. It
    succeeds when the dutycycle is in [0,1], the period is not zero and, for
    a straight grating, the resist is '-' or '+', for a focusing grating, the
    focus distance is positive, there is at least one tooth
    (floor(length / period) >= 1) and each curve has at least two
    evaluations. Whatever the failure, the cell holds no element and no
    port. *)
Theorem construction_outcome (self : t) :
  ((exists e, fst (new self) = inl e /\ InvalidParameter e = true)
   <-> (~ dutycycle_in_range self
        \/ (~ period self == 0 /\ ~ focus_ok self)))
  /\ (dutycycle_in_range self -> ~ period self == 0 ->
      match focus_distance self with
      | None => self_resist self = "-" \/ self_resist self = "+"
      | Some fd =>
          0 < fd
          /\ (1 <= Qfloor (length self / period self))%Z
          /\ (2 <= evaluations self)%Z
      end ->
      fst (new self) = inr tt)
  /\ (forall e, fst (new self) = inl e -> snd (new self) = empty_cell).
Proof.
  split; [|split].
  - split.
    + intros [e [He Hinv]].
      destruct (new_failure self e He) as [_ [Hv Ha]].
      destruct e; simpl in Hinv; try discriminate.
      * left. apply Hv. eexists. reflexivity.
      * right. destruct (Ha eq_refl) as [_ [Hp Hf]]. split; assumption.
    + intros H.
      destruct (py.gt (dutycycle self) 1.0 || py.lt (dutycycle self) 0.0)
        eqn:E.
      * assert (~ dutycycle_in_range self) as Hout.
        { intros Hr. apply dutycycle_test in Hr. congruence. }
        destruct (new_out_of_range self Hout) as [msg Hn].
        exists (py.ValueError msg). rewrite Hn. split; reflexivity.
      * apply dutycycle_test in E. destruct H as [H|[Hp Hf]]; [contradiction|].
        exists py.AssertionError. rewrite (new_bad_focus self E Hp Hf).
        split; reflexivity.
  - intros Hin Hp Hcan.
    assert (focus_ok self /\ buildable self) as [Hf Hb].
    { unfold focus_ok, buildable.
      destruct (focus_distance self) as [fd|]; [|split; [exact I|exact Hcan]].
      destruct Hcan as [Hfd [Hn He]]. split; [exact Hfd|].
      pose proof (curved_teeth_polygons self
                    (Qfloor (length self / period self)) fd He) as Hc.
      intros Hnil. rewrite Hnil in Hc. apply Nat.le_0_r in Hc. lia. }
    destruct (new_buildable self Hin Hp Hf Hb) as [tp [_ Hn]].
    rewrite Hn. reflexivity.
  - intros e He. apply (new_failure self e He).
Qed.

End Teeth.


Lemma construction_outcome_witness :
  fst (@GratingCoupler.new Reference.kernel Reference.numpy Reference.toolkit
         Spec.small_lensed) = inr tt.
Proof.
  apply (proj1 (proj2 (@construction_outcome Reference.kernel Reference.numpy
                         Reference.toolkit Reference.drawing
                         Spec.small_lensed))).
  - split; unfold Qle; simpl; lia.
  - unfold Qeq; simpl; lia.
  - simpl. split; [unfold Qlt; simpl; lia|].
    split; [vm_compute; discriminate|lia].
Defined.

(** ** Orientation and the port *)
Section Orientation.
Context `{K : gdspy.Kernel} `{S : np.Sqrt} `{T : tk.Toolkit}.
Import GratingCoupler Spec.

Lemma degrees_quarter : np.degrees (np.pi / 2.0) == 90.
Proof. unfold np.degrees, np.pi. reflexivity. Qed.

Lemma degrees_half : np.degrees np.pi == 180.
Proof. unfold np.degrees, np.pi. reflexivity. Qed.

Lemma degrees_minus_quarter : np.degrees (- np.pi / 2.0) == -90.
Proof. unfold np.degrees, np.pi. reflexivity. Qed.

Lemma orient_rotation (self : t) (tp : gdspy.shape * gdspy.shape) :
  orient self tp =
  match rotation (direction self) with
  | Some a =>
      (gdspy.rotate a (port self) (fst tp), gdspy.rotate a (port self) (snd tp))
  | None => tp
  end.
Proof.
  unfold orient, rotation.
  destruct (String.eqb_spec (direction self) "WEST") as [E|E].
  - rewrite E. reflexivity.
  - destruct (String.eqb_spec (direction self) "SOUTH") as [E'|E'].
    + rewrite E'. reflexivity.
    + destruct (String.eqb (direction self) "EAST"); reflexivity.
Qed.

(** C7. The taper path and the teeth are both rotated about the port by an
    angle that depends on the direction alone: +90 degrees for WEST, +180
    for SOUTH, -90 for EAST; they are not rotated for NORTH, nor for any
    direction that is none of the four tags. The cell holds the teeth and
    the path so oriented. *)
Theorem orientation (self : t) :
  (forall tp,
     orient self tp =
     match rotation (direction self) with
     | Some a =>
         (gdspy.rotate a (port self) (fst tp),
          gdspy.rotate a (port self) (snd tp))
     | None => tp
     end)
  /\ (exists a, rotation "WEST" = Some a /\ np.degrees a == 90)
  /\ (exists a, rotation "SOUTH" = Some a /\ np.degrees a == 180)
  /\ (exists a, rotation "EAST" = Some a /\ np.degrees a == -90)
  /\ rotation "NORTH" = None
  /\ (forall d, d <> "WEST" -> d <> "SOUTH" -> d <> "EAST" ->
                rotation d = None)
  /\ (forall c, new self = (inr tt, c) ->
        exists tp, shapes self = inr (Some tp)
                   /\ elements c = [fst (orient self tp); snd (orient self tp)]).
Proof.
  split; [intros tp; apply orient_rotation|].
  split; [eexists; split; [reflexivity|apply degrees_quarter]|].
  split; [eexists; split; [reflexivity|apply degrees_half]|].
  split; [eexists; split; [reflexivity|apply degrees_minus_quarter]|].
  split; [reflexivity|]. split.
  - intros d H1 H2 H3. unfold rotation.
    apply String.eqb_neq in H1, H2, H3. rewrite H1, H2, H3. reflexivity.
  - intros c H. destruct (new_success self c H) as [tp [Hs Hc]].
    exists tp. split; [exact Hs|]. rewrite Hc. reflexivity.
Qed.

(** C8. A successful construction registers exactly one port, under the key
    "output": its position is the port the caller gave and its direction is
    [tk.flip_direction] of the requested direction, the opposite tag for a
    cardinal direction. Another direction gives another rotation (-90
    degrees for EAST, +90 for WEST) and the same registered position. *)
Theorem output_port (self : t) (c : Cell) :
  new self = (inr tt, c) ->
  portlist c
  = {[ "output" :=
         {| Port.port := port self;
            Port.direction := tk.flip_direction (direction self) |} ]}
  /\ size (portlist c) = 1%nat
  /\ (forall key entry, portlist c !! key = Some entry ->
        key = "output" /\ Port.port entry = port self
        /\ Port.direction entry = tk.flip_direction (direction self))
  /\ (forall o, tk.opposite (direction self) = Some o ->
        Port.direction <$> (portlist c !! "output") = Some (Some o))
  /\ (forall d c', new (set_direction d self) = (inr tt, c') ->
        Port.port <$> (portlist c' !! "output")
        = Port.port <$> (portlist c !! "output"))
  /\ (exists a b, rotation "EAST" = Some a /\ rotation "WEST" = Some b
                  /\ np.degrees a == -90 /\ np.degrees b == 90 /\ ~ a == b).
Proof.
  intros H. destruct (new_success self c H) as [tp [_ Hc]]. subst c.
  unfold built. simpl.
  split; [reflexivity|]. split; [apply map_size_singleton|].
  split; [|split; [|split]].
  - intros key entry Hl. apply lookup_singleton_Some in Hl.
    destruct Hl as [Hk He]. subst key entry. repeat split; reflexivity.
  - intros o Ho. rewrite lookup_singleton_eq. simpl.
    rewrite (tk.flip_cardinal _ _ Ho). reflexivity.
  - intros d c' H'. destruct (new_success _ c' H') as [tp' [_ Hc']]. subst c'.
    unfold built. simpl. rewrite !lookup_singleton_eq. reflexivity.
  - exists (- np.pi / 2.0), (np.pi / 2.0).
    split; [reflexivity|]. split; [reflexivity|].
    split; [apply degrees_minus_quarter|]. split; [apply degrees_quarter|].
    unfold np.pi, Qeq. simpl. lia.
Qed.

(** C10. In the focusing mode the construction does not look at the resist:
    two constructions that differ in the resist tag only have the same
    outcome, the same elements (teeth and path) and the same port list. *)
Theorem resist_independent (self : t) (r1 r2 : string) (fd : Q) :
  focus_distance self = Some fd ->
  new (set_resist r1 self) = new (set_resist r2 self).
Proof.
  intros Hf. unfold new, __init__, build_cell, shapes. simpl.
  rewrite Hf. reflexivity.
Qed.

End Orientation.

Lemma orientation_witness : Spec.rotation "UP" = None.
Proof.
  apply (@orientation Reference.kernel Reference.numpy Reference.toolkit
           Reference.gc1); intros H; discriminate H.
Defined.

Lemma output_port_witness :
  Port.direction
  <$> (GratingCoupler.portlist
         (snd (@GratingCoupler.new Reference.kernel Reference.numpy
                 Reference.toolkit Reference.gc1)) !! "output")
  = Some (Some "EAST").
Proof.
  destruct (@new_buildable Reference.kernel Reference.numpy Reference.toolkit
              Reference.gc1) as [tp [_ Hn]].
  - split; unfold Qle; simpl; lia.
  - unfold Qeq; simpl; lia.
  - exact I.
  - left. reflexivity.
  - destruct (@output_port Reference.kernel Reference.numpy Reference.toolkit
                Reference.gc1 _ Hn) as [Hp _].
    rewrite Hn. simpl. rewrite lookup_singleton_eq. reflexivity.
Defined.

Lemma resist_independent_witness :
  @GratingCoupler.new Reference.kernel Reference.numpy Reference.toolkit
    (Spec.set_resist "-" Spec.small_lensed)
  = @GratingCoupler.new Reference.kernel Reference.numpy Reference.toolkit
      (Spec.set_resist "+" Spec.small_lensed).
Proof.
  apply (@resist_independent Reference.kernel Reference.numpy
           Reference.toolkit Spec.small_lensed "-" "+" 2.0).
  reflexivity.
Defined.

(** ** Failures the validation does not cover *)

(** Evaluates [shapes] on the input of the goal and rewrites with the
    result [r]. *)
Ltac compute_shapes r :=
  match goal with
  | |- context [@GratingCoupler.shapes ?K ?S ?a] =>
      let E := fresh "E" in
      assert (@GratingCoupler.shapes K S a = r) as E
        by (vm_compute; reflexivity);
      rewrite E
  end.

(** A straight grating on a resist that is neither '-' nor '+': the
    locals [teeth] and [path] are read without having been assigned. *)
Example unknown_resist_unbound :
  @GratingCoupler.new Reference.kernel Reference.numpy Reference.toolkit
    (Spec.set_resist "x" Reference.gc1)
  = (inl (py.UnboundLocalError "teeth"), GratingCoupler.empty_cell).
Proof.
  rewrite new_in_range by (split; unfold Qle; simpl; lia).
  compute_shapes
    (@inr py.exn (option (@gdspy.shape Reference.kernel
                          * @gdspy.shape Reference.kernel)) None).
  reflexivity.
Qed.

(** A focusing grating shorter than its period: the loop draws no tooth and
    [teeth.polygons[0]] does not exist. *)
Example no_tooth_index_error :
  @GratingCoupler.new Reference.kernel Reference.numpy Reference.toolkit
    Spec.short_lensed
  = (inl py.IndexError, GratingCoupler.empty_cell).
Proof.
  rewrite new_in_range by (split; unfold Qle; simpl; lia).
  compute_shapes
    (@inl py.exn (option (@gdspy.shape Reference.kernel
                          * @gdspy.shape Reference.kernel)) py.IndexError).
  reflexivity.
Qed.

(** A focus distance of zero is supplied and not positive. *)
Example zero_focus_assertion :
  @GratingCoupler.new Reference.kernel Reference.numpy Reference.toolkit
    Spec.zero_focus
  = (inl py.AssertionError, GratingCoupler.empty_cell).
Proof.
  rewrite new_in_range by (split; unfold Qle; simpl; lia).
  compute_shapes
    (@inl py.exn (option (@gdspy.shape Reference.kernel
                          * @gdspy.shape Reference.kernel))
       py.AssertionError).
  reflexivity.
Qed.

(** The first two teeth of [gc1] before the rotation, as the reference
    kernel draws them: 20 wide about the port, 0.7 thick, one period apart,
    the first one starting where the taper ends. *)
Example gc1_first_teeth :
  match @GratingCoupler.shapes Reference.kernel Reference.numpy
          Reference.gc1 with
  | inr (Some (teeth, _)) =>
      map (map (fun p : point => (Qred (fst p), Qred (snd p))))
          (firstn 2 (gdspy.polygons teeth))
  | _ => []
  end
  = [[(-10, 20); (10, 20); (10, 207 # 10); (-10, 207 # 10)];
     [(-10, 21); (10, 21); (10, 217 # 10); (-10, 217 # 10)]].
Proof. vm_compute. reflexivity. Qed.

(** * Further properties of the class *)

(** ** Every outcome of the constructor *)
Section Outcomes.
Context `{K : gdspy.Kernel} `{S : np.Sqrt} `{T : tk.Toolkit}.
Import GratingCoupler Spec.

(** The constructor ends in one of six ways, each with its own condition. *)
Lemma outcome_cases (self : t) :
  (~ dutycycle_in_range self
   /\ exists msg, new self = (inl (py.ValueError msg), empty_cell))
  \/ (dutycycle_in_range self /\ period self == 0
      /\ new self = (inl py.ZeroDivisionError, empty_cell))
  \/ (dutycycle_in_range self /\ ~ period self == 0
      /\ focus_distance self = None
      /\ self_resist self <> "-" /\ self_resist self <> "+"
      /\ new self = (inl (py.UnboundLocalError "teeth"), empty_cell))
  \/ (dutycycle_in_range self /\ ~ period self == 0
      /\ (exists fd, focus_distance self = Some fd /\ ~ 0 < fd)
      /\ new self = (inl py.AssertionError, empty_cell))
  \/ (dutycycle_in_range self /\ ~ period self == 0
      /\ (exists fd, focus_distance self = Some fd /\ 0 < fd
            /\ gdspy.polygons
                 (curved_teeth self (Qfloor (length self / period self)) fd)
               = [])
      /\ new self = (inl py.IndexError, empty_cell))
  \/ (dutycycle_in_range self /\ ~ period self == 0
      /\ focus_ok self /\ buildable self
      /\ exists tp, new self = (inr tt, built self tp)).
Proof.
  destruct (py.gt (dutycycle self) 1.0 || py.lt (dutycycle self) 0.0) eqn:E.
  { left. assert (~ dutycycle_in_range self) as Hout.
    { intros Hr. apply dutycycle_test in Hr. congruence. }
    split; [exact Hout|]. apply new_out_of_range. exact Hout. }
  apply dutycycle_test in E. right.
  destruct (Qeq_dec (period self) 0) as [Hz|Hz].
  { left. split; [exact E|]. split; [exact Hz|].
    rewrite (new_in_range _ E), (shapes_zero_period _ Hz). reflexivity. }
  right. destruct (focus_distance self) as [fd|] eqn:Ef.
  - right. destruct (Qlt_le_dec 0 fd) as [Hfd|Hfd].
    + right.
      destruct (gdspy.polygons
                  (curved_teeth self (Qfloor (length self / period self)) fd))
        as [|first others] eqn:Ep.
      * left. split; [exact E|]. split; [exact Hz|]. split.
        { exists fd. split; [reflexivity|]. split; [exact Hfd|exact Ep]. }
        rewrite (new_in_range _ E), (shapes_lensed _ fd Hz Ef),
          (lensed_positive _ _ _ Hfd).
        unfold close_first. rewrite Ep. reflexivity.
      * right.
        assert (focus_ok self) as Hok by (unfold focus_ok; rewrite Ef; exact Hfd).
        assert (buildable self) as Hb.
        { unfold buildable. rewrite Ef, Ep. discriminate. }
        split; [exact E|]. split; [exact Hz|]. split; [exact Hok|].
        split; [exact Hb|].
        destruct (new_buildable self E Hz Hok Hb) as [tp [_ Hn]].
        exists tp. exact Hn.
    + left. assert (~ 0 < fd) as Hn by lra.
      split; [exact E|]. split; [exact Hz|]. split.
      { exists fd. split; [reflexivity|exact Hn]. }
      apply (new_bad_focus self E Hz). unfold focus_ok. rewrite Ef. exact Hn.
  - destruct (String.eqb_spec (self_resist self) "-") as [Em|Em];
      [|destruct (String.eqb_spec (self_resist self) "+") as [Ep|Ep]].
    + do 3 right.
      assert (focus_ok self) as Hok by (unfold focus_ok; rewrite Ef; exact I).
      assert (buildable self) as Hb by (unfold buildable; rewrite Ef; tauto).
      split; [exact E|]. split; [exact Hz|]. split; [exact Hok|].
      split; [exact Hb|].
      destruct (new_buildable self E Hz Hok Hb) as [tp [_ Hn]].
      exists tp. exact Hn.
    + do 3 right.
      assert (focus_ok self) as Hok by (unfold focus_ok; rewrite Ef; exact I).
      assert (buildable self) as Hb by (unfold buildable; rewrite Ef; tauto).
      split; [exact E|]. split; [exact Hz|]. split; [exact Hok|].
      split; [exact Hb|].
      destruct (new_buildable self E Hz Hok Hb) as [tp [_ Hn]].
      exists tp. exact Hn.
    + left. split; [exact E|]. split; [exact Hz|]. split; [reflexivity|].
      split; [exact Em|]. split; [exact Ep|].
      rewrite (new_in_range _ E), (shapes_straight _ Hz Ef).
      unfold straight.
      apply String.eqb_neq in Em, Ep. rewrite Em, Ep. reflexivity.
Qed.

(** Splits on the outcome of [new self] and rewrites with it. *)
Ltac outcome self :=
  let H := fresh "H" in
  let Hn := fresh "Hn" in
  destruct (outcome_cases self)
    as [[H [? Hn]]
       |[[H [? Hn]]
        |[[H [? [? [? [? Hn]]]]]
         |[[H [? [[? [? ?]] Hn]]]
          |[[H [? [[? [? [? ?]]] Hn]]]
           |[H [? [? [? [? Hn]]]]]]]]]];
  rewrite Hn in *; simpl in *.

(** Closes the cases whose conditions contradict the hypotheses. *)
Ltac clash :=
  unfold focus_ok, buildable in *;
  repeat match goal with
         | H : _ /\ _ |- _ => destruct H
         | H : exists _, _ |- _ => destruct H
         | H : focus_distance ?s = _, H' : focus_distance ?s = _ |- _ =>
             rewrite H in H'; try discriminate H'; inversion H'; subst;
             clear H'
         | H : focus_distance ?s = _, H' : context [focus_distance ?s] |- _ =>
             rewrite H in H'
         | H : gdspy.polygons ?x = [], H' : gdspy.polygons ?x <> [] |- _ =>
             contradiction
         end;
  try discriminate; try contradiction; try tauto; try congruence.

Lemma floor_below_one (x : Q) : x < 1 -> (Qfloor x <= 0)%Z.
Proof.
  intros Hx. destruct (Z_le_gt_dec (Qfloor x) 0) as [H|H]; [exact H|].
  assert (1 <= Qfloor x)%Z as H1 by lia.
  rewrite Zle_Qle in H1. pose proof (Qfloor_le x) as Hle.
  change (inject_Z 1) with 1 in H1. lra.
Qed.

Lemma no_tooth_no_polygon (self : t) (n : Z) (fd : Q) :
  (n <= 0)%Z -> gdspy.polygons (curved_teeth self n fd) = [].
Proof.
  intros Hn. unfold curved_teeth, tooth_indices, py.range.
  replace (Z.to_nat (qmin self fd + n - qmin self fd)) with 0%nat by lia.
  simpl. apply gdspy.Path_polygons.
Qed.

(** X1. What a successful construction requires of the arguments: the
    dutycycle is in [0,1] and the period is not zero; a straight grating has
    a resist of '-' or '+'; a focusing grating has a positive focus distance
    and at least one tooth, floor(length / period) >= 1. *)
Theorem construction_requirements (self : t) :
  fst (new self) = inr tt ->
  dutycycle_in_range self /\ ~ period self == 0
  /\ match focus_distance self with
     | None => self_resist self = "-" \/ self_resist self = "+"
     | Some fd => 0 < fd /\ (1 <= Qfloor (length self / period self))%Z
     end.
Proof.
  intros Hs.
  destruct (outcome_cases self)
    as [[_ [msg Hn]]
       |[[_ [_ Hn]]
        |[[_ [_ [_ [_ [_ Hn]]]]]
         |[[_ [_ [_ Hn]]]
          |[[_ [_ [_ Hn]]]
           |[Hin [Hz [Hf [Hb _]]]]]]]]];
    try (rewrite Hn in Hs; discriminate Hs).
  split; [exact Hin|]. split; [exact Hz|].
  unfold focus_ok, buildable in *.
  destruct (focus_distance self) as [fd|]; [|exact Hb].
  split; [exact Hf|].
  destruct (Z_le_gt_dec (Qfloor (length self / period self)) 0) as [H|H];
    [|lia].
  exfalso. apply Hb. apply no_tooth_no_polygon. exact H.
Qed.

(** X2. Which exception the constructor raises first, and that it leaves
    the cell empty: [ValueError] on a dutycycle outside [0,1], whatever the
    other arguments; with a dutycycle in [0,1], [ZeroDivisionError] on a
    period of zero, also when the focus distance or the resist is bad; with
    a period that is not zero, [AssertionError] on a focus distance that is
    supplied and not positive, and [UnboundLocalError] for the local [teeth]
    on a straight grating whose resist is neither '-' nor '+'. *)
Theorem exception_raised (self : t) :
  (~ dutycycle_in_range self ->
   exists msg, new self = (inl (py.ValueError msg), empty_cell))
  /\ (dutycycle_in_range self -> period self == 0 ->
      new self = (inl py.ZeroDivisionError, empty_cell))
  /\ (dutycycle_in_range self -> ~ period self == 0 ->
      forall fd, focus_distance self = Some fd -> ~ 0 < fd ->
      new self = (inl py.AssertionError, empty_cell))
  /\ (dutycycle_in_range self -> ~ period self == 0 ->
      focus_distance self = None ->
      self_resist self <> "-" -> self_resist self <> "+" ->
      new self = (inl (py.UnboundLocalError "teeth"), empty_cell)).
Proof.
  split; [|split; [|split]].
  - apply new_out_of_range.
  - intros Hin Hz.
    rewrite (new_in_range _ Hin), (shapes_zero_period _ Hz). reflexivity.
  - intros Hin Hz fd Hf Hfd. apply (new_bad_focus self Hin Hz).
    unfold focus_ok. rewrite Hf. exact Hfd.
  - intros Hin Hz Hf Hm Hp.
    rewrite (new_in_range _ Hin), (shapes_straight _ Hz Hf).
    unfold straight. apply String.eqb_neq in Hm, Hp. rewrite Hm, Hp.
    reflexivity.
Qed.

(** X9. In a straight grating that was constructed with a period that is
    not negative, the thickness of the teeth handed to [L1Path] (line 76 or
    84) lies between 0 and the period, the distance between the teeth of the
    row. *)
Theorem straight_tooth_thickness (self : t) :
  fst (new self) = inr tt -> focus_distance self = None ->
  0 <= period self ->
  exists teeth path p thickness n,
    shapes self = inr (Some (teeth, path))
    /\ teeth =
       gdspy.L1Path p "+x" thickness [width self] [] n (period self)
         (spec_layer self) (spec_datatype self)
    /\ (thickness = period self * dc self /\ self_resist self = "-"
        \/ thickness = period self * (1.0 - dc self) /\ self_resist self = "+")
    /\ 0 <= thickness /\ thickness <= period self.
Proof.
  intros Hs Hf Hp.
  destruct (outcome_cases self)
    as [[_ [msg Hn]]
       |[[_ [_ Hn]]
        |[[_ [_ [_ [_ [_ Hn]]]]]
         |[[_ [_ [_ Hn]]]
          |[[_ [_ [_ Hn]]]
           |[[Hd0 Hd1] [Hz [_ [_ [[teeth path] Hn]]]]]]]]]];
    try (rewrite Hn in Hs; discriminate Hs).
  apply new_success in Hn. destruct Hn as [tp [Hsh _]].
  pose proof Hsh as Hst. rewrite (shapes_straight _ Hz Hf) in Hst.
  inversion Hst as [Hst']. destruct tp as [teeth' path'].
  pose proof (straight_teeth_shape _ _ _ _ Hst') as Ht.
  assert (0 <= period self * dutycycle self)
    by (apply Qmult_le_0_compat; lra).
  assert (0 <= period self * (1 - dutycycle self))
    by (apply Qmult_le_0_compat; lra).
  exists teeth', path'. eexists. eexists. eexists.
  split; [exact Hsh|]. split; [exact Ht|].
  unfold straight in Hst'. unfold effective_duty, dc.
  destruct (String.eqb_spec (self_resist self) "-") as [Em|Em].
  - split; [left; split; [reflexivity|exact Em]|]. split; lra.
  - destruct (String.eqb_spec (self_resist self) "+") as [Ep|Ep];
      [|discriminate Hst'].
    split; [right; split; [reflexivity|exact Ep]|]. split; lra.
Qed.

(** X3. A focusing grating shorter than one period cannot be built, on any
    kernel: with a valid dutycycle, a positive period and focus distance and
    a length below the period, the loop draws no tooth, the tooth path has
    no polygon and [teeth.polygons[0]] raises [IndexError]; the cell is left
    empty. *)
Theorem short_focusing_grating_fails (self : t) (fd : Q) :
  dutycycle_in_range self -> 0 < period self ->
  length self < period self ->
  focus_distance self = Some fd -> 0 < fd ->
  new self = (inl py.IndexError, empty_cell).
Proof.
  intros Hin Hp Hl Hf Hfd.
  assert (~ period self == 0) as Hz by (intros E; rewrite E in Hp; lra).
  assert (Qfloor (length self / period self) <= 0)%Z as Hn.
  { apply floor_below_one. apply Qlt_shift_div_r; lra. }
  rewrite (new_in_range _ Hin), (shapes_lensed _ fd Hz Hf),
    (lensed_positive _ _ _ Hfd).
  unfold close_first. rewrite (no_tooth_no_polygon _ _ _ Hn). reflexivity.
Qed.

End Outcomes.

Lemma short_focusing_grating_fails_witness :
  @GratingCoupler.new Reference.kernel Reference.numpy Reference.toolkit
    Spec.short_lensed
  = (inl py.IndexError, GratingCoupler.empty_cell).
Proof.
  apply (@short_focusing_grating_fails Reference.kernel Reference.numpy
           Reference.toolkit Spec.short_lensed 20.0).
  - split; unfold Qle; simpl; lia.
  - unfold Qlt; simpl; lia.
  - unfold Qlt; simpl; lia.
  - reflexivity.
  - unfold Qlt; simpl; lia.
Defined.

Lemma construction_requirements_witness :
  ~ GratingCoupler.period Reference.gc1 == 0.
Proof.
  apply (@construction_requirements Reference.kernel Reference.numpy
           Reference.toolkit Reference.gc1).
  destruct (@new_buildable Reference.kernel Reference.numpy Reference.toolkit
              Reference.gc1) as [tp [_ Hn]].
  - split; unfold Qle; simpl; lia.
  - unfold Qeq; simpl; lia.
  - exact I.
  - left. reflexivity.
  - rewrite Hn. reflexivity.
Defined.

Lemma exception_raised_witness :
  @GratingCoupler.new Reference.kernel Reference.numpy Reference.toolkit
    Spec.zero_period
  = (inl py.ZeroDivisionError, GratingCoupler.empty_cell).
Proof.
  apply (@exception_raised Reference.kernel Reference.numpy
           Reference.toolkit Spec.zero_period).
  - split; unfold Qle; simpl; lia.
  - reflexivity.
Defined.

Lemma straight_tooth_thickness_witness :
  exists teeth path p thickness n,
    @GratingCoupler.shapes Reference.kernel Reference.numpy Reference.gc1
    = inr (Some (teeth, path))
    /\ teeth =
       gdspy.L1Path p "+x" thickness [GratingCoupler.width Reference.gc1] []
         n (GratingCoupler.period Reference.gc1)
         (GratingCoupler.spec_layer Reference.gc1)
         (GratingCoupler.spec_datatype Reference.gc1)
    /\ 0 <= thickness /\ thickness <= GratingCoupler.period Reference.gc1.
Proof.
  destruct (@straight_tooth_thickness Reference.kernel Reference.numpy
              Reference.toolkit Reference.gc1)
    as [teeth [path [p [thickness [n [Hs [Ht [_ Hb]]]]]]]].
  - destruct (@new_buildable Reference.kernel Reference.numpy
                Reference.toolkit Reference.gc1) as [tp [_ Hn]].
    + split; unfold Qle; simpl; lia.
    + unfold Qeq; simpl; lia.
    + exact I.
    + left. reflexivity.
    + rewrite Hn. reflexivity.
  - reflexivity.
  - unfold Qle; simpl; lia.
  - exists teeth, path, p, thickness, n.
    split; [exact Hs|]. split; [exact Ht|exact Hb].
Defined.

(** ** Numbers of the grating *)
Section Numbers.
Context `{K : gdspy.Kernel} `{S : np.Sqrt} `{T : tk.Toolkit}.
Import GratingCoupler Spec Variation.

Lemma quotient_times (a b : Q) : ~ b == 0 -> a == a / b * b.
Proof. intros Hb. field. exact Hb. Qed.

Lemma square_nonneg (a : Q) : 0 <= a ^ 2.
Proof.
  destruct (Qlt_le_dec a 0) as [H|H].
  - assert (a ^ 2 == (- a) * (- a)) as E by ring.
    rewrite E. apply Qmult_le_0_compat; lra.
  - assert (a ^ 2 == a * a) as E by ring.
    rewrite E. apply Qmult_le_0_compat; lra.
Qed.

(** X4. With a positive period the teeth fit in the grating: [num_teeth]
    periods do not exceed the length and one more would, so that there is at
    least one tooth exactly when the length is at least one period. *)
Theorem teeth_fit_length (self : t) :
  0 < period self ->
  exists n,
    num_teeth self = inr n
    /\ inject_Z n * period self <= length self
    /\ length self < (inject_Z n + 1) * period self
    /\ ((1 <= n)%Z <-> period self <= length self).
Proof.
  intros Hp.
  assert (~ period self == 0) as Hz by (intros E; rewrite E in Hp; lra).
  exists (Qfloor (length self / period self)).
  split; [apply (num_teeth_ok _ Hz)|].
  pose proof (Qfloor_le (length self / period self)) as Hle.
  pose proof (Qlt_floor (length self / period self)) as Hlt.
  rewrite inject_Z_plus in Hlt. change (inject_Z 1) with 1 in Hlt.
  pose proof (quotient_times (length self) (period self) Hz) as Hq.
  set (x := length self / period self) in *.
  set (n := Qfloor x) in *.
  assert (inject_Z n * period self <= length self) as H1.
  { rewrite Hq.
    assert (0 <= (x - inject_Z n) * period self)
      by (apply Qmult_le_0_compat; lra).
    lra. }
  assert (length self < (inject_Z n + 1) * period self) as H2.
  { rewrite Hq at 1.
    assert (0 < (inject_Z n + 1 - x) * period self)
      by (apply Qmult_lt_0_compat; lra).
    lra. }
  split; [exact H1|]. split; [exact H2|]. split.
  - intros Hn. rewrite Zle_Qle in Hn. change (inject_Z 1) with 1 in Hn.
    assert (0 <= (inject_Z n - 1) * period self)
      by (apply Qmult_le_0_compat; lra).
    lra.
  - intros Hl. destruct (Z_le_gt_dec 1 n) as [Hn|Hn]; [exact Hn|].
    assert (n + 1 <= 1)%Z as Hn' by lia.
    rewrite Zle_Qle, inject_Z_plus in Hn'. change (inject_Z 1) with 1 in Hn'.
    assert (0 <= (1 - (inject_Z n + 1)) * period self)
      by (apply Qmult_le_0_compat; lra).
    lra.
Qed.

(** X5. With a positive period and focus distance the first tooth index
    [qmin] is not negative; when the focus distance, the period, their
    quotient and its sum with 0.5 are doubles, so that line 91 rounds
    nothing, [qmin] periods are within half a period of the focus
    distance. *)
Theorem first_tooth_near_focus (self : t) (fd : Q) :
  0 < fd -> 0 < period self ->
  (0 <= qmin self fd)%Z
  /\ (py.double fd == fd ->
      py.double (period self) == period self ->
      py.double (fd / period self) == fd / period self ->
      py.double (fd / period self + 0.5) == fd / period self + 0.5 ->
      Qabs (inject_Z (qmin self fd) * period self - fd)
      <= period self * (1 # 2)).
Proof.
  intros Hfd Hp. split; [apply (qmin_nonneg self fd Hfd Hp)|].
  intros H0 H1 H2 H3.
  destruct (qmin_exact self fd Hfd Hp H0 H1 H2 H3) as [_ Hn].
  assert (~ period self == 0) as Hz by (intros E; rewrite E in Hp; lra).
  unfold nearest in Hn. apply Qabs_Qle_condition in Hn.
  destruct Hn as [Ha Hb].
  pose proof (quotient_times fd (period self) Hz) as Hfq.
  set (x := fd / period self) in *. set (q := inject_Z (qmin self fd)) in *.
  apply Qabs_Qle_condition. split.
  - assert (0 <= (q - x + (1 # 2)) * period self)
      by (apply Qmult_le_0_compat; lra).
    rewrite Hfq. lra.
  - assert (0 <= ((1 # 2) - (q - x)) * period self)
      by (apply Qmult_le_0_compat; lra).
    rewrite Hfq. lra.
Qed.

(** X6. With a positive wavelength and period and an incidence angle whose
    sine is not negative, [neff] and [c3] are positive, so that the curve
    never divides by zero; [c3] is (wavelength/period) *
    (wavelength/period + 2*sin_theta). *)
Theorem c3_positive (self : t) :
  0 < wavelength self -> 0 < period self -> 0 <= sin_theta self ->
  0 < neff self
  /\ c3 self
     == wavelength self / period self
        * (wavelength self / period self + 2 * sin_theta self)
  /\ 0 < c3 self.
Proof.
  intros Hw Hp Hs.
  assert (0 < wavelength self / period self) as Hr
    by (apply Qlt_shift_div_l; lra).
  assert (c3 self
          == wavelength self / period self
             * (wavelength self / period self + 2 * sin_theta self)) as E.
  { unfold c3, neff. ring. }
  split; [unfold neff; lra|]. split; [exact E|].
  rewrite E. apply Qmult_lt_0_compat; lra.
Qed.

(** X7. The centre line of a curved tooth, the curve handed to
    [parametric], spans the width of the grating: for a width that is not
    negative and t in [0,1], x(t) lies between -width/2 and width/2; it is
    -width/2 at t = 0, width/2 at t = 1 and 0 at t = 1/2. The tooth itself,
    a path of width period * dc about this line, reaches further. *)
Theorem curve_within_width (self : t) (q : Z) (t : Q) :
  0 <= width self -> 0 <= t -> t <= 1 ->
  - (width self * (1 # 2)) <= fst (curve self q t)
  /\ fst (curve self q t) <= width self * (1 # 2)
  /\ fst (curve self q 0) == - (width self * (1 # 2))
  /\ fst (curve self q 1) == width self * (1 # 2)
  /\ fst (curve self q (1 # 2)) == 0.
Proof.
  intros Hw H0 H1. unfold curve, w. simpl.
  assert (0 <= width self * t) by (apply Qmult_le_0_compat; lra).
  assert (0 <= width self * (1 - t)) by (apply Qmult_le_0_compat; lra).
  split; [lra|]. split; [lra|]. split; [ring|]. split; ring.
Qed.

(** X8. Along a tooth the argument of the square root is least at the two
    ends: when [c3] is not negative and t is in [0,1], it is at least its
    value at t = 0, which is also its value at t = 1. A tooth whose ends are
    real is real all along. *)
Theorem radicand_least_at_ends (self : t) (q : Z) (t : Q) :
  0 <= c3 self -> 0 <= t -> t <= 1 ->
  snd (curve self q t)
  == (c1 self q + neff self * np.sqrt (radicand self q t)) / c3 self
  /\ radicand self q 0 == radicand self q 1
  /\ radicand self q 0 <= radicand self q t.
Proof.
  intros Hc H0 H1. split; [reflexivity|]. unfold radicand, w. split; [ring|].
  pose proof (square_nonneg (width self)) as Hsq.
  assert (0 <= t * (1 - t)) as Ht by (apply Qmult_le_0_compat; lra).
  assert (0 <= c3 self * (width self ^ 2 * (t * (1 - t)))) as Hprod.
  { apply Qmult_le_0_compat; [exact Hc|].
    apply Qmult_le_0_compat; assumption. }
  assert (c2 self q - c3 self * (width self * t - 0.5 * width self) ^ 2
          - (c2 self q - c3 self * (width self * 0 - 0.5 * width self) ^ 2)
          == c3 self * (width self ^ 2 * (t * (1 - t)))) as E by ring.
  lra.
Qed.

End Numbers.

(** Decides a comparison of two rational constants. *)
Ltac qconst :=
  vm_compute; first [reflexivity | discriminate | intros ?; discriminate].

Lemma teeth_fit_length_witness :
  exists n,
    GratingCoupler.num_teeth Reference.gc1 = inr n
    /\ inject_Z n * GratingCoupler.period Reference.gc1
       <= GratingCoupler.length Reference.gc1.
Proof.
  destruct (@teeth_fit_length Reference.gc1) as [n [Hn [Hl _]]].
  - qconst.
  - exists n. split; [exact Hn|exact Hl].
Defined.

Lemma first_tooth_near_focus_witness :
  Qabs (inject_Z (GratingCoupler.qmin Spec.small_lensed 2.0)
        * GratingCoupler.period Spec.small_lensed - 2.0)
  <= GratingCoupler.period Spec.small_lensed * (1 # 2).
Proof.
  apply (@first_tooth_near_focus Spec.small_lensed 2.0); qconst.
Defined.

Lemma c3_positive_witness : 0 < GratingCoupler.c3 Spec.small_lensed.
Proof.
  apply (@c3_positive Spec.small_lensed); qconst.
Defined.

Lemma curve_within_width_witness :
  - (GratingCoupler.width Spec.small_lensed * (1 # 2))
  <= fst (@GratingCoupler.curve Reference.numpy Spec.small_lensed 2 (1 # 4)).
Proof.
  apply (@curve_within_width Reference.numpy Spec.small_lensed 2 (1 # 4));
    qconst.
Defined.

Lemma radicand_least_at_ends_witness :
  Variation.radicand Spec.small_lensed 2 0
  <= Variation.radicand Spec.small_lensed 2 (1 # 4).
Proof.
  apply (@radicand_least_at_ends Reference.numpy Spec.small_lensed 2 (1 # 4));
    qconst.
Defined.

(** ** The loop over the teeth and the closing of the first polygon *)
Section Loop.
Context `{K : gdspy.Kernel} `{S : np.Sqrt} `{T : tk.Toolkit}.
Import GratingCoupler Spec.

(** X10. The teeth are drawn in the order of their indices, starting with
    the index [qmin]: the i-th tooth drawn has the index qmin + i, no index is
    drawn twice, and no tooth is drawn when [num_teeth] is zero or negative.
    The polygon closed onto the port is therefore the one of the tooth
    [qmin]. *)
Theorem tooth_indices_consecutive (self : t) (n : Z) (fd : Q) :
  List.length (tooth_indices self n fd) = Z.to_nat n
  /\ (forall i, (i < Z.to_nat n)%nat ->
        nth_error (tooth_indices self n fd) i
        = Some (qmin self fd + Z.of_nat i)%Z)
  /\ List.NoDup (tooth_indices self n fd)
  /\ ((n <= 0)%Z -> tooth_indices self n fd = [])
  /\ ((1 <= n)%Z -> hd_error (tooth_indices self n fd) = Some (qmin self fd)).
Proof.
  rewrite tooth_indices_range.
  split; [rewrite length_map, length_seq; reflexivity|]. split; [|split; [|split]].
  - intros i Hi. rewrite nth_error_map, nth_error_seq.
    apply Nat.ltb_lt in Hi. rewrite Hi. reflexivity.
  - apply Finite.Injective_map_NoDup.
    + intros a b Hab. lia.
    + apply List.seq_NoDup.
  - intros Hn. replace (Z.to_nat n) with 0%nat by lia. reflexivity.
  - intros Hn. destruct (Z.to_nat n) as [|k] eqn:E; [lia|].
    simpl. f_equal. lia.
Qed.

(** X11. Every turn of the loop puts the pen of the tooth path back on the
    port: as soon as one tooth is drawn, [teeth.x] and [teeth.y] are the
    coordinates of the port when the loop is over, whatever the kernel did
    to them. *)
Theorem pen_returns_to_port (self : t) (n : Z) (fd : Q) :
  (1 <= n)%Z ->
  gdspy.x (curved_teeth self n fd) = fst (port self)
  /\ gdspy.y (curved_teeth self n fd) = snd (port self).
Proof.
  intros Hn. unfold curved_teeth. rewrite tooth_indices_range.
  destruct (Z.to_nat n) as [|k] eqn:E; [lia|].
  rewrite seq_S, map_app, fold_left_app. simpl. split; reflexivity.
Qed.

(** X12. Closing the first polygon changes nothing else of the tooth path
    (its position, the other attributes, the number of polygons and all
    polygons but the first), and the new first polygon is a prefix of the
    old one followed by the two points at the port: it has at most two
    points more than the old one and, when [evaluations] is not negative, at
    most [evaluations + 2] points. *)
Theorem closing_keeps_the_rest (self : t) (teeth closed : gdspy.shape) :
  close_first self teeth = inr closed ->
  gdspy.x closed = gdspy.x teeth
  /\ gdspy.y closed = gdspy.y teeth
  /\ gdspy.hidden closed = gdspy.hidden teeth
  /\ List.length (gdspy.polygons closed) = List.length (gdspy.polygons teeth)
  /\ tl (gdspy.polygons closed) = tl (gdspy.polygons teeth)
  /\ exists first kept dropped,
       hd_error (gdspy.polygons teeth) = Some first
       /\ first = kept ++ dropped
       /\ hd_error (gdspy.polygons closed)
          = Some (kept
                  ++ [(fst (port self) + 0.5 * wg_width (wgt self),
                       snd (port self));
                      (fst (port self) - 0.5 * wg_width (wgt self),
                       snd (port self))])
       /\ ((0 <= evaluations self)%Z ->
           (List.length kept <= Z.to_nat (evaluations self))%nat).
Proof.
  unfold close_first.
  destruct (gdspy.polygons teeth) as [|first others] eqn:Ep;
    intros H; inversion H; subst closed; clear H. simpl.
  repeat (split; [reflexivity|]).
  unfold py.slice_to, np.vstack.
  destruct (0 <=? evaluations self)%Z eqn:E.
  - exists first, (firstn (Z.to_nat (evaluations self)) first),
      (skipn (Z.to_nat (evaluations self)) first).
    split; [reflexivity|]. split; [symmetry; apply firstn_skipn|].
    split; [reflexivity|]. intros _. apply firstn_le_length.
  - exists first,
      (firstn (List.length first - Z.to_nat (- evaluations self)) first),
      (skipn (List.length first - Z.to_nat (- evaluations self)) first).
    split; [reflexivity|]. split; [symmetry; apply firstn_skipn|].
    split; [reflexivity|]. intros H. apply Z.leb_gt in E. lia.
Qed.

End Loop.

Lemma pen_returns_to_port_witness :
  gdspy.x (@GratingCoupler.curved_teeth Reference.kernel Reference.numpy
             Spec.small_lensed 3 2.0)
  = fst (GratingCoupler.port Spec.small_lensed).
Proof.
  apply (@pen_returns_to_port Reference.kernel Reference.numpy
           Spec.small_lensed 3 2.0).
  lia.
Defined.

Lemma closing_keeps_the_rest_witness :
  exists closed : @gdspy.shape Reference.kernel,
    @GratingCoupler.close_first Reference.kernel Spec.small_lensed
      (gdspy.set_polygons [[(0, 0); (1, 1); (2, 0); (3, 1)]]
         (Reference.Path 1 (0, 0) 1 0))
    = inr closed
    /\ List.length (gdspy.polygons closed) = 1%nat.
Proof.
  eexists. split; [reflexivity|].
  apply (@closing_keeps_the_rest Reference.kernel Spec.small_lensed
           (gdspy.set_polygons [[(0, 0); (1, 1); (2, 0); (3, 1)]]
              (Reference.Path 1 (0, 0) 1 0))).
  reflexivity.
Defined.

(** ** What the two modes do not read, and the methods on a cell that is
    not empty *)
Section Frames.
Context `{K : gdspy.Kernel} `{S : np.Sqrt} `{T : tk.Toolkit}.
Import GratingCoupler Spec Variation.

(** X13. A straight grating does not read the parameters the docstring
    reserves to the focusing grating: without a focus distance, the
    wavelength, the sine of the incidence angle and the number of
    evaluations have no effect on the construction. *)
Theorem straight_ignores_focusing (self : t) (wl st : Q) (ev : Z) :
  focus_distance self = None ->
  new (set_focusing wl st ev self) = new self.
Proof.
  intros Hf. unfold new, __init__, build_cell, shapes. simpl.
  rewrite Hf. reflexivity.
Qed.

(** X14. The cladding width of the template is read by the straight
    grating on the etch-positive resist only: it has no effect on a focusing
    grating, nor on a straight grating whose resist is '-'. *)
Theorem clad_width_unused (self : t) (v : Q) :
  (exists fd, focus_distance self = Some fd) \/ self_resist self = "-" ->
  new (set_clad_width v self) = new self.
Proof.
  intros H. unfold new, __init__, build_cell, shapes. simpl.
  destruct (focus_distance self) as [fd|] eqn:Ef; [reflexivity|].
  destruct H as [[fd Hfd]|Hr]; [discriminate Hfd|].
  unfold straight, self_resist in *. simpl. rewrite Hr. reflexivity.
Qed.

(** X15. [build_ports] never fails and touches the entry "output" only,
    on any cell: the elements and the other ports are kept, an earlier
    "output" is overwritten, and calling it again changes nothing. *)
Theorem build_ports_frame (self : t) (c : Cell) :
  fst (build_ports self c) = inr tt
  /\ elements (snd (build_ports self c)) = elements c
  /\ portlist (snd (build_ports self c)) !! "output"
     = Some {| Port.port := port self;
               Port.direction := tk.flip_direction (direction self) |}
  /\ (forall key, key <> "output" ->
        portlist (snd (build_ports self c)) !! key = portlist c !! key)
  /\ build_ports self (snd (build_ports self c)) = build_ports self c.
Proof.
  unfold build_ports, set_port. simpl.
  split; [reflexivity|]. split; [reflexivity|].
  split; [apply lookup_insert_eq|]. split.
  - intros key Hk. apply lookup_insert_ne. congruence.
  - rewrite insert_insert_eq. reflexivity.
Qed.

Lemma build_cell_run (self : t) (c : Cell) :
  (forall e c', build_cell self c = (inl e, c') -> c' = c)
  /\ (forall c', build_cell self c = (inr tt, c') ->
        exists tp,
          shapes self = inr (Some tp)
          /\ elements c'
             = elements c ++ [fst (orient self tp); snd (orient self tp)]
          /\ portlist c' = portlist c).
Proof.
  unfold build_cell, bind, lift, locals, ret, raise, add.
  destruct (shapes self) as [e0|[tp|]]; simpl; split.
  - intros e c' H. inversion H. reflexivity.
  - intros c' H. discriminate H.
  - intros e c' H. discriminate H.
  - intros c' H. inversion H. exists tp. split; [reflexivity|]. simpl.
    split; [rewrite <- app_assoc; reflexivity|reflexivity].
  - intros e c' H. inversion H. reflexivity.
  - intros c' H. discriminate H.
Qed.

(** X16. [build_cell] on any cell: when it raises, the cell is as it was;
    when it returns, the oriented teeth and path have been appended, in this
    order, after the elements the cell held, and the ports are untouched. *)
Theorem build_cell_frame (self : t) (c : Cell) :
  (forall e c', build_cell self c = (inl e, c') -> c' = c)
  /\ (forall c', build_cell self c = (inr tt, c') ->
        exists tp,
          shapes self = inr (Some tp)
          /\ elements c'
             = elements c ++ [fst (orient self tp); snd (orient self tp)]
          /\ portlist c' = portlist c).
Proof. exact (build_cell_run self c). Qed.

(** X17. The constructor starts from a fresh cell (lines 36 and 38):
    whatever the cell held, the outcome is that of a first construction. A
    failure leaves it with no element and no port; a success leaves it with
    the oriented teeth and path, in this order, as its only elements and
    "output" as its only port. Run again on a cell that was built, it does
    not add the geometry a second time. *)
Theorem init_resets_cell (self : t) (c : Cell) :
  __init__ self c = new self
  /\ (forall e c', __init__ self c = (inl e, c') -> c' = empty_cell)
  /\ (forall c', __init__ self c = (inr tt, c') ->
        exists tp,
          shapes self = inr (Some tp)
          /\ elements c' = [fst (orient self tp); snd (orient self tp)]
          /\ portlist c'
             = {[ "output" :=
                    {| Port.port := port self;
                       Port.direction :=
                         tk.flip_direction (direction self) |} ]}
          /\ __init__ self c' = (inr tt, c')).
Proof.
  assert (forall c0, __init__ self c0 = new self) as E by reflexivity.
  split; [apply E|]. split.
  - intros e c' H. rewrite E in H.
    assert (fst (new self) = inl e) as Hf by (rewrite H; reflexivity).
    destruct (new_failure self e Hf) as [Hc _]. rewrite H in Hc. exact Hc.
  - intros c' H. rewrite E in H.
    destruct (new_success self c' H) as [tp [Hs Hc]].
    exists tp. split; [exact Hs|]. subst c'. unfold built. simpl.
    split; [reflexivity|]. split; [reflexivity|].
    rewrite E. exact H.
Qed.

(** X18. The constructor with every default of its signature, on a
    template whose resist is '-' or '+': it succeeds, the grating is straight
    with 50 teeth, the teeth and the path are rotated by -pi/2 about the
    origin (the default direction is EAST), and the port "output" is the
    origin with the direction WEST. *)
Theorem default_construction (wg : WaveguideTemplate) :
  resist wg = "-" \/ resist wg = "+" ->
  num_teeth (defaults wg) = inr 50%Z
  /\ exists teeth path,
       straight (defaults wg) 50 = Some (teeth, path)
       /\ new (defaults wg)
          = (inr tt,
             {| elements := [gdspy.rotate (- np.pi / 2.0) (0, 0) teeth;
                             gdspy.rotate (- np.pi / 2.0) (0, 0) path];
                portlist :=
                  {[ "output" := {| Port.port := (0, 0);
                                    Port.direction := Some "WEST" |} ]} |}).
Proof.
  intros Hr.
  assert (dutycycle_in_range (defaults wg)) as Hin by (split; qconst).
  assert (~ period (defaults wg) == 0) as Hz by qconst.
  assert (num_teeth (defaults wg) = inr 50%Z) as Hn.
  { rewrite (num_teeth_ok _ Hz). reflexivity. }
  split; [exact Hn|].
  destruct (straight_known (defaults wg) 50 Hr) as [[teeth path] Hs].
  exists teeth, path. split; [exact Hs|].
  rewrite (new_in_range _ Hin). unfold shapes. rewrite Hn. simpl.
  rewrite Hs. unfold built, orient. simpl.
  rewrite (tk.flip_cardinal "EAST" "WEST" eq_refl). reflexivity.
Qed.

End Frames.

Lemma straight_ignores_focusing_witness :
  @GratingCoupler.new Reference.kernel Reference.numpy Reference.toolkit
    (Variation.set_focusing 1.31 0 7 Reference.gc1)
  = @GratingCoupler.new Reference.kernel Reference.numpy Reference.toolkit
      Reference.gc1.
Proof.
  apply (@straight_ignores_focusing Reference.kernel Reference.numpy
           Reference.toolkit Reference.gc1 1.31 0 7).
  reflexivity.
Defined.

Lemma clad_width_unused_witness :
  @GratingCoupler.new Reference.kernel Reference.numpy Reference.toolkit
    (Variation.set_clad_width 3 Reference.gc1)
  = @GratingCoupler.new Reference.kernel Reference.numpy Reference.toolkit
      Reference.gc1.
Proof.
  apply (@clad_width_unused Reference.kernel Reference.numpy
           Reference.toolkit Reference.gc1 3).
  right. reflexivity.
Defined.

Lemma default_construction_witness :
  GratingCoupler.num_teeth (GratingCoupler.defaults (Reference.wgt "+"))
  = inr 50%Z.
Proof.
  apply (@default_construction Reference.kernel Reference.numpy
           Reference.toolkit (Reference.wgt "+")).
  right. reflexivity.
Defined.
